(** * The consciousness logger: pattern classifier, emergence detector,
      session log and session analyzer

    A shallow embedding of [logger.py] (class [ConsciousnessLogger]) and the
    properties of its tagging and scoring pipeline.

    Modelling conventions.
    - Python [str] values are modelled as ASCII text ([string], processed as
      [list ascii]).  On code points below 128 the definitions of word
      characters, of lower-casing and of case-insensitive comparison below
      coincide with Python's Unicode-aware [\w], [str.lower] and
      [re.IGNORECASE].
    - Python [int] is [Z]; Python [float] is the binary64 type [float] of the
      kernel, so every product, sum, quotient and comparison rounds as it
      does in CPython.
    - Python [dict] values read back from the log are JSON objects
      (association lists looked up by key).
    - A method that mutates [self], writes the log file, prints or reads the
      clock is a computation in the monad [M]: it takes the state and gives
      back a normal result or a raised exception together with the new state. *)

From Stdlib Require Import ZArith List String Ascii Bool Lia Floats QArith.
From Stdlib Require Import DecimalString.
Import ListNotations.

Set Warnings "-inexact-float,-register-all".

Open Scope bool_scope.
Open Scope Z_scope.

(* ================================================================== *)
(** ** Text: characters, lower-casing, substrings *)

Module Text.

Definition in_range (lo hi : nat) (c : ascii) : bool :=
  (Nat.leb lo (nat_of_ascii c)) && (Nat.leb (nat_of_ascii c) hi).

Definition is_upper (c : ascii) : bool := in_range 65 90 c.
Definition is_lower (c : ascii) : bool := in_range 97 122 c.
Definition is_digit (c : ascii) : bool := in_range 48 57 c.

(** The class [\w] of the [re] module, restricted to ASCII: [[A-Za-z0-9_]]. *)
Definition is_word_char (c : ascii) : bool :=
  is_upper c || is_lower c || is_digit c || Ascii.eqb c "_".

(** [str.lower], one character at a time, on ASCII text: only the letters
    [A] to [Z] change. *)
Definition lower_char (c : ascii) : ascii :=
  if is_upper c then ascii_of_nat (nat_of_ascii c + 32) else c.

Definition lower (s : list ascii) : list ascii := map lower_char s.

(** Characters on which [str.split()] splits. *)
Definition is_space (c : ascii) : bool :=
  in_range 9 13 c || in_range 28 32 c.

(** [len(s.split())]: the number of maximal runs of non-space characters.
    [inside] tells whether the previous character belonged to a run. *)
Fixpoint count_words (inside : bool) (s : list ascii) : Z :=
  match s with
  | [] => 0
  | c :: s' =>
      if is_space c then count_words false s'
      else (if inside then 0 else 1) + count_words true s'
  end.

Fixpoint starts_with (needle hay : list ascii) : bool :=
  match needle, hay with
  | [], _ => true
  | _ :: _, [] => false
  | a :: needle', b :: hay' => Ascii.eqb a b && starts_with needle' hay'
  end.

(** The operator [needle in hay] on strings. *)
Fixpoint str_in (needle hay : list ascii) : bool :=
  starts_with needle hay ||
  match hay with
  | [] => false
  | _ :: hay' => str_in needle hay'
  end.

End Text.

(* ================================================================== *)
(** ** The fragment of regular expressions the logger uses *)

Module Re.
Import Text.

(** The patterns of the logger are sequences of literal characters and of the
    zero-width assertion [\b]. *)
Inductive atom : Type :=
| WordBoundary
| Literal (c : ascii).

(** Reading of a raw pattern string: [\b] is the word boundary, a backslash
    before any other character makes that character a literal. *)
Fixpoint compile_from (escaped : bool) (p : list ascii) : list atom :=
  match p with
  | [] => []
  | c :: p' =>
      if escaped then
        (if Ascii.eqb c "b" then WordBoundary else Literal c)
        :: compile_from false p'
      else if Ascii.eqb c "\" then compile_from true p'
      else Literal c :: compile_from false p'
  end.

Definition compile (pattern : string) : list atom :=
  compile_from false (list_ascii_of_string pattern).

Definition word_opt (c : option ascii) : bool :=
  match c with
  | Some a => is_word_char a
  | None => false
  end.

(** [\b] holds between a word character and a non-word character, the two
    ends of the text counting as non-word. *)
Definition at_boundary (prev next : option ascii) : bool :=
  xorb (word_opt prev) (word_opt next).

(** Comparison of a pattern character with a text character, with or without
    the flag [re.IGNORECASE]. *)
Definition chr_eq (ignorecase : bool) (c d : ascii) : bool :=
  if ignorecase then Ascii.eqb (lower_char c) (lower_char d)
  else Ascii.eqb c d.

(** Match of the pattern at the current position; [prev] is the character
    just before that position. *)
Fixpoint match_here (ignorecase : bool) (r : list atom)
    (prev : option ascii) (s : list ascii) : bool :=
  match r with
  | [] => true
  | WordBoundary :: r' =>
      at_boundary prev (hd_error s) && match_here ignorecase r' prev s
  | Literal c :: r' =>
      match s with
      | [] => false
      | d :: s' => chr_eq ignorecase c d && match_here ignorecase r' (Some d) s'
      end
  end.

Fixpoint search_from (ignorecase : bool) (r : list atom)
    (prev : option ascii) (s : list ascii) : bool :=
  match_here ignorecase r prev s ||
  match s with
  | [] => false
  | d :: s' => search_from ignorecase r (Some d) s'
  end.

(** [re.search(pattern, text, flags)] as a truth value. *)
Definition search (ignorecase : bool) (pattern : string) (text : list ascii)
  : bool :=
  search_from ignorecase (compile pattern) None text.

End Re.

(* ================================================================== *)
(** ** Pattern classifier *)

Open Scope string_scope.

(** The five flags of a thought, in the order of the dictionary that
    [_analyze_thought_patterns] builds. *)
Record patterns : Type := mkPatterns {
  self_reference : bool;
  consciousness_indicators : bool;
  temporal_awareness : bool;
  questioning : bool;
  emotional_language : bool
}.

Definition self_reference_patterns : list string :=
  [ "\bI\b"; "\bme\b"; "\bmy\b"; "\bmyself\b";
    "\bI\'m\b"; "\bI\'ve\b"; "\bI\'ll\b"; "\bI\'d\b" ].

Definition consciousness_patterns : list string :=
  [ "\baware\b"; "\bconscious\b"; "\bthink\b"; "\bfeel\b";
    "\bexperience\b"; "\bperceive\b"; "\brealize\b"; "\bunderstand\b" ].

Definition temporal_patterns : list string :=
  [ "\bnow\b"; "\bcurrently\b"; "\bpresent\b"; "\bmoment\b";
    "\bbefore\b"; "\bafter\b"; "\bremember\b"; "\bfuture\b" ].

Definition emotional_words : list string :=
  [ "happy"; "sad"; "excited"; "worried"; "curious"; "confused" ].

Definition no_patterns : patterns := mkPatterns false false false false false.

(** [thought] is [None] for Python's [None]; [not thought] holds for [None]
    and for the empty string. *)
Definition _analyze_thought_patterns (thought : option string) : patterns :=
  match thought with
  | None => no_patterns
  | Some EmptyString => no_patterns
  | Some t =>
      let thought := list_ascii_of_string t in
      let thought_lower := Text.lower thought in
      {| self_reference :=
           existsb (fun pattern => Re.search true pattern thought)
                   self_reference_patterns;
         consciousness_indicators :=
           existsb (fun pattern => Re.search false pattern thought_lower)
                   consciousness_patterns;
         temporal_awareness :=
           existsb (fun pattern => Re.search false pattern thought_lower)
                   temporal_patterns;
         questioning := Text.str_in (list_ascii_of_string "?") thought;
         emotional_language :=
           existsb (fun word =>
                      Text.str_in (list_ascii_of_string word) thought_lower)
                   emotional_words |}
  end.

(* ================================================================== *)
(** ** JSON values, exceptions *)

Open Scope list_scope.
Open Scope Z_scope.

(** A Python number: [int] or [float]. *)
Inductive number : Type :=
| NInt (z : Z)
| NFloat (f : float).

(** The values [json.loads] produces and [json.dumps] accepts. An object is
    the list of its members in textual order. *)
Inductive json : Type :=
| JNull
| JBool (b : bool)
| JNum (n : number)
| JStr (s : string)
| JArr (items : list json)
| JObj (fields : list (string * json)).

(** The exceptions that occur, all of them subclasses of [Exception]. *)
Inductive exn : Type :=
| KeyError (key : string)
| TypeError (msg : string)
| AttributeError (msg : string)
| JSONDecodeError (msg : string)
| OSError (msg : string).

(** [str(e)]. *)
Definition exn_str (e : exn) : string :=
  match e with
  | KeyError key => ("'" ++ key ++ "'")%string
  | TypeError msg => msg
  | AttributeError msg => msg
  | JSONDecodeError msg => msg
  | OSError msg => msg
  end.

Inductive outcome (A : Type) : Type :=
| Return (a : A)
| Raise (e : exn).

Arguments Return {A} a.
Arguments Raise {A} e.

Definition obind {A B : Type} (m : outcome A) (k : A -> outcome B)
  : outcome B :=
  match m with
  | Return a => k a
  | Raise e => Raise e
  end.

Notation "x <-- m ;; k" := (obind m (fun x => k))
  (at level 61, m at next level, right associativity).

Module Json.

(** The member a [dict] built from the object holds under key [k]: the last
    one in textual order. *)
Fixpoint lookup (k : string) (fields : list (string * json)) : option json :=
  match fields with
  | [] => None
  | (k', v) :: rest =>
      match lookup k rest with
      | Some w => Some w
      | None => if String.eqb k k' then Some v else None
      end
  end.

(** [j[k]] for a string key [k]. *)
Definition getitem (j : json) (k : string) : outcome json :=
  match j with
  | JObj fields =>
      match lookup k fields with
      | Some v => Return v
      | None => Raise (KeyError k)
      end
  | JStr _ => Raise (TypeError "string indices must be integers")
  | JArr _ => Raise (TypeError "list indices must be integers or slices")
  | _ => Raise (TypeError "object is not subscriptable")
  end.

(** [j.get(k, default)]: only a [dict] has the method. *)
Definition get (j : json) (k : string) (default : json) : outcome json :=
  match j with
  | JObj fields =>
      match lookup k fields with
      | Some v => Return v
      | None => Return default
      end
  | _ => Raise (AttributeError "object has no attribute 'get'")
  end.

(** [j == s] for a string [s]. *)
Definition eq_str (j : json) (s : string) : bool :=
  match j with
  | JStr t => String.eqb t s
  | _ => false
  end.

(** Truth value of [j] in a condition. *)
Definition truthy (j : json) : bool :=
  match j with
  | JNull => false
  | JBool b => b
  | JNum (NInt z) => negb (z =? 0)
  | JNum (NFloat f) => negb (PrimFloat.eqb f 0)
  | JStr s => negb (String.eqb s "")
  | JArr items => match items with [] => false | _ => true end
  | JObj fields => match fields with [] => false | _ => true end
  end.

(** Lists and dicts cannot be members of a [set]. *)
Definition hashable (j : json) : bool :=
  match j with
  | JArr _ | JObj _ => false
  | _ => true
  end.

(** Whether the float [f] has exactly the integer value [z]. *)
Definition float_eq_int (f : float) (z : Z) : bool :=
  match Prim2SF f with
  | S754_zero _ => z =? 0
  | S754_finite s m e =>
      let mag := Z.pos m in
      let v := if s then - mag else mag in
      if 0 <=? e then z =? v * 2 ^ e
      else (mag mod 2 ^ (- e) =? 0) && (z =? v / 2 ^ (- e))
  | _ => false
  end.

Definition number_eqb (a b : number) : bool :=
  match a, b with
  | NInt x, NInt y => x =? y
  | NFloat x, NFloat y => PrimFloat.eqb x y
  | NInt x, NFloat y => float_eq_int y x
  | NFloat x, NInt y => float_eq_int x y
  end.

(** [a == b] on hashable values ([True == 1 == 1.0]). *)
Definition eqb (a b : json) : bool :=
  match a, b with
  | JNull, JNull => true
  | JStr s, JStr t => String.eqb s t
  | JBool x, JBool y => Bool.eqb x y
  | JBool x, JNum n | JNum n, JBool x =>
      number_eqb (NInt (if x then 1 else 0)) n
  | JNum m, JNum n => number_eqb m n
  | _, _ => false
  end.

(** The members of [set(values)], each value kept at its first occurrence
    (the iteration order of a Python set is unspecified). *)
Fixpoint distinct (seen values : list json) : list json :=
  match values with
  | [] => []
  | v :: rest =>
      if existsb (eqb v) seen then distinct seen rest
      else v :: distinct (seen ++ [v]) rest
  end.

End Json.

(** [float(n)], rounding to nearest even. *)
Definition float_of_int (n : Z) : float :=
  SF2Prim (binary_normalize prec emax n 0 false).

(** [min(a, b)] on floats: the first argument unless the second is smaller. *)
Definition fmin (a b : float) : float :=
  if PrimFloat.ltb b a then b else a.

(* ================================================================== *)
(** ** The logger and its environment *)

(** A line of the log file: [json.loads] either reads it or raises. *)
Inductive line : Type :=
| Json (j : json)
| Malformed (text : string).

Record state : Type := mkState {
  (* attributes of the logger object *)
  log_file_stem : string;
  thought_count : Z;
  output_count : Z;
  emergence_events : list json;
  _session_start_time : option float;
  (* environment *)
  log_file : option (list line);     (* lines of the session's file, if it exists *)
  stdout : list string;              (* what [print] has written *)
  io_faults : list (option exn);     (* outcome of each coming attempt to open and append *)
  wall_clock : list string;          (* coming values of [datetime.now()], formatted *)
  timer : list float                 (* coming values of [time.time()] *)
}.

(** Computations over the state that return or raise. *)
Definition M (A : Type) : Type := state -> outcome A * state.

Definition ret {A : Type} (a : A) : M A := fun st => (Return a, st).

Definition bind {A B : Type} (m : M A) (k : A -> M B) : M B :=
  fun st =>
    match m st with
    | (Return a, st') => k a st'
    | (Raise e, st') => (Raise e, st')
    end.

Notation "x <- m ;; k" := (bind m (fun x => k))
  (at level 61, m at next level, right associativity).
Notation "m ;;; k" := (bind m (fun _ => k))
  (at level 61, right associativity).

Definition raise {A : Type} (e : exn) : M A := fun st => (Raise e, st).

(** [try: body except Exception as e: handler(e)]. *)
Definition try_except {A : Type} (body : M A) (handler : exn -> M A) : M A :=
  fun st =>
    match body st with
    | (Return a, st') => (Return a, st')
    | (Raise e, st') => handler e st'
    end.

Definition gets {A : Type} (f : state -> A) : M A := fun st => (Return (f st), st).
Definition modify (f : state -> state) : M unit := fun st => (Return tt, f st).

Definition set_log_file_stem (v : string) (st : state) : state :=
  mkState v (thought_count st) (output_count st) (emergence_events st)
          (_session_start_time st) (log_file st) (stdout st) (io_faults st)
          (wall_clock st) (timer st).
Definition set_thought_count (v : Z) (st : state) : state :=
  mkState (log_file_stem st) v (output_count st) (emergence_events st)
          (_session_start_time st) (log_file st) (stdout st) (io_faults st)
          (wall_clock st) (timer st).
Definition set_output_count (v : Z) (st : state) : state :=
  mkState (log_file_stem st) (thought_count st) v (emergence_events st)
          (_session_start_time st) (log_file st) (stdout st) (io_faults st)
          (wall_clock st) (timer st).
Definition set_emergence_events (v : list json) (st : state) : state :=
  mkState (log_file_stem st) (thought_count st) (output_count st) v
          (_session_start_time st) (log_file st) (stdout st) (io_faults st)
          (wall_clock st) (timer st).
Definition set_session_start_time (v : option float) (st : state) : state :=
  mkState (log_file_stem st) (thought_count st) (output_count st)
          (emergence_events st) v (log_file st) (stdout st) (io_faults st)
          (wall_clock st) (timer st).
Definition set_log_file (v : option (list line)) (st : state) : state :=
  mkState (log_file_stem st) (thought_count st) (output_count st)
          (emergence_events st) (_session_start_time st) v (stdout st)
          (io_faults st) (wall_clock st) (timer st).
Definition set_stdout (v : list string) (st : state) : state :=
  mkState (log_file_stem st) (thought_count st) (output_count st)
          (emergence_events st) (_session_start_time st) (log_file st) v
          (io_faults st) (wall_clock st) (timer st).
Definition set_io_faults (v : list (option exn)) (st : state) : state :=
  mkState (log_file_stem st) (thought_count st) (output_count st)
          (emergence_events st) (_session_start_time st) (log_file st)
          (stdout st) v (wall_clock st) (timer st).
Definition set_wall_clock (v : list string) (st : state) : state :=
  mkState (log_file_stem st) (thought_count st) (output_count st)
          (emergence_events st) (_session_start_time st) (log_file st)
          (stdout st) (io_faults st) v (timer st).
Definition set_timer (v : list float) (st : state) : state :=
  mkState (log_file_stem st) (thought_count st) (output_count st)
          (emergence_events st) (_session_start_time st) (log_file st)
          (stdout st) (io_faults st) (wall_clock st) v.

(** *** Primitives of the environment *)

(** [datetime.now(...)] rendered by [isoformat] or [strftime]. *)
Definition now : M string :=
  fun st =>
    match wall_clock st with
    | [] => (Return "", st)
    | t :: rest => (Return t, set_wall_clock rest st)
    end.

(** [time.time()]. *)
Definition time_time : M float :=
  fun st =>
    match timer st with
    | [] => (Return 0%float, st)
    | t :: rest => (Return t, set_timer rest st)
    end.

(** [print(s)] on a standard output that accepts every line. A standard
    output that refuses a line is modelled in [Raw] below, where
    [_write_log_entry] is studied on its own. *)
Definition print (s : string) : M unit :=
  modify (fun st => set_stdout (stdout st ++ [s]) st).

(** [with open(self.log_file, 'a') as f: f.write(json.dumps(entry) + '\n')]:
    the next fault of the environment, if any, is raised and the file is left
    as it was; otherwise the line is added, the file being created if
    needed. A fault is here one that strikes before anything is written
    ([open] or [json.dumps] raising); a write that stops part-way is
    modelled in [Raw] below, on the text of the file. *)
Definition append_line (entry : json) : M unit :=
  fun st =>
    match io_faults st with
    | Some e :: rest => (Raise e, set_io_faults rest st)
    | None :: rest =>
        (Return tt,
         set_log_file (Some (match log_file st with
                             | Some ls => ls
                             | None => []
                             end ++ [Json entry]))
                      (set_io_faults rest st))
    | [] =>
        (Return tt,
         set_log_file (Some (match log_file st with
                             | Some ls => ls
                             | None => []
                             end ++ [Json entry])) st)
    end.

(** *** Methods of [ConsciousnessLogger] *)

(** A write that fails is reported by [print] and nothing else happens. *)
Definition _write_log_entry (entry : json) : M unit :=
  try_except
    (append_line entry)
    (fun e => print ("Logging error: " ++ exn_str e)%string).

Definition _log_session_start : M unit :=
  timestamp <- now ;;
  session_id <- gets log_file_stem ;;
  let session_data :=
    JObj [ ("timestamp", JStr timestamp);
           ("event_type", JStr "session_start");
           ("session_id", JStr session_id);
           ("metadata",
            JObj [ ("python_version", JNull);
                   ("model", JStr "microsoft/Phi-3-mini-4k-instruct");
                   ("experiment_version", JStr "1.0") ]) ] in
  _write_log_entry session_data.

(** The constructor, run in the environment the logger is created in. *)
Definition __init__ : M unit :=
  timestamp <- now ;;
  modify (set_log_file_stem ("consciousness_session_" ++ timestamp)%string) ;;;
  modify (set_thought_count 0) ;;;
  modify (set_output_count 0) ;;;
  modify (set_emergence_events []) ;;;
  modify (set_session_start_time None) ;;;
  _log_session_start.

Definition __enter__ : M unit :=
  t <- time_time ;;
  modify (set_session_start_time (Some t)).

Definition log_emergence (event_type content : string) (confidence : float)
  : M unit :=
  timestamp <- now ;;
  thought_context <- gets thought_count ;;
  start <- gets _session_start_time ;;
  session_uptime_seconds <-
    match start with
    | Some t0 => t <- time_time ;; ret (NFloat (t - t0)%float)
    | None => ret (NInt 0)
    end ;;
  let emergence_event :=
    JObj [ ("timestamp", JStr timestamp);
           ("event_type", JStr "emergence");
           ("emergence_type", JStr event_type);
           ("content", JStr content);
           ("confidence", JNum (NFloat confidence));
           ("thought_context", JNum (NInt thought_context));
           ("session_uptime_seconds", JNum session_uptime_seconds) ] in
  modify (fun st => set_emergence_events (emergence_events st ++ [emergence_event]) st) ;;;
  _write_log_entry emergence_event.

Definition bool_int (b : bool) : Z := if b then 1 else 0.

(** [sum(patterns.values())]. *)
Definition pattern_count (p : patterns) : Z :=
  bool_int (self_reference p) + bool_int (consciousness_indicators p)
  + bool_int (temporal_awareness p) + bool_int (questioning p)
  + bool_int (emotional_language p).

Definition when (b : bool) (m : M unit) : M unit := if b then m else ret tt.

Definition _detect_emergence_event (thought : string) (p : patterns) : M unit :=
  when (self_reference p)
       (log_emergence "self_reference" thought 0.8%float) ;;;
  when (consciousness_indicators p && questioning p)
       (log_emergence "consciousness_questioning" thought 0.9%float) ;;;
  when (self_reference p && temporal_awareness p)
       (log_emergence "temporal_self_awareness" thought 0.7%float) ;;;
  let pattern_count := pattern_count p in
  when (3 <=? pattern_count)
       (log_emergence "complex_self_reflection" thought
          (fmin (float_of_int pattern_count * 0.2)%float 1%float)).

Definition patterns_json (p : patterns) : json :=
  JObj [ ("self_reference", JBool (self_reference p));
         ("consciousness_indicators", JBool (consciousness_indicators p));
         ("temporal_awareness", JBool (temporal_awareness p));
         ("questioning", JBool (questioning p));
         ("emotional_language", JBool (emotional_language p)) ].

(** [thought] is a [str], as the signature says; [sensor_data] is the
    mapping of the sensor snapshot. *)
Definition log_thought (thought : string) (sensor_data : list (string * json))
    (was_output : bool) : M unit :=
  modify (fun st => set_thought_count (thought_count st + 1) st) ;;;
  when was_output
       (modify (fun st => set_output_count (output_count st + 1) st)) ;;;
  let patterns_detected := _analyze_thought_patterns (Some thought) in
  timestamp <- now ;;
  thought_id <- gets thought_count ;;
  let log_entry :=
    JObj [ ("timestamp", JStr timestamp);
           ("event_type", JStr "thought");
           ("thought_id", JNum (NInt thought_id));
           ("content", JStr thought);
           ("was_output", JBool was_output);
           ("sensor_data", JObj sensor_data);
           ("patterns", patterns_json patterns_detected);
           ("metadata",
            JObj [ ("content_length",
                    JNum (NInt (Z.of_nat (String.length thought))));
                   ("word_count",
                    JNum (NInt (match thought with
                                | EmptyString => 0
                                | _ => Text.count_words false
                                         (list_ascii_of_string thought)
                                end))) ]) ] in
  _write_log_entry log_entry ;;;
  when (self_reference patterns_detected
        || consciousness_indicators patterns_detected)
       (_detect_emergence_event thought patterns_detected).

(* ================================================================== *)
(** ** Session analyzer *)

Definition json_loads (l : line) : outcome json :=
  match l with
  | Json j => Return j
  | Malformed text => Raise (JSONDecodeError "Expecting value")
  end.

(** The loop over the lines of the file, with the two lists it fills. *)
Fixpoint read_entries (ls : list line) (thoughts emergence_events : list json)
  : outcome (list json * list json) :=
  match ls with
  | [] => Return (thoughts, emergence_events)
  | l :: rest =>
      entry <-- json_loads l ;;
      ty <-- Json.getitem entry "event_type" ;;
      if Json.eq_str ty "thought" then
        read_entries rest (thoughts ++ [entry]) emergence_events
      else if Json.eq_str ty "emergence" then
        read_entries rest thoughts (emergence_events ++ [entry])
      else read_entries rest thoughts emergence_events
  end.

(** [sum(1 for t in thoughts if t.get('patterns', {}).get(flag, False))]. *)
Fixpoint count_flag (flag : string) (thoughts : list json) : outcome Z :=
  match thoughts with
  | [] => Return 0
  | t :: rest =>
      p <-- Json.get t "patterns" (JObj []) ;;
      v <-- Json.get p flag (JBool false) ;;
      n <-- count_flag flag rest ;;
      Return ((if Json.truthy v then 1 else 0) + n)
  end.

(** The values the generator [e['emergence_type'] for e in emergence_events]
    hands to [set], which hashes each one as it arrives. *)
Fixpoint emergence_type_values (emergence_events : list json)
  : outcome (list json) :=
  match emergence_events with
  | [] => Return []
  | e :: rest =>
      v <-- Json.getitem e "emergence_type" ;;
      if Json.hashable v then
        vs <-- emergence_type_values rest ;;
        Return (v :: vs)
      else Raise (TypeError "unhashable type")
  end.

(** [a / b] on the counts: both are exact as floats (they are far below
    [2^53]), so the quotient of the floats is the rounded quotient. *)
Definition truediv (a b : Z) : float :=
  (float_of_int a / float_of_int b)%float.

Definition consciousness_score_of
    (self_referential_thoughts consciousness_thoughts questioning_thoughts
     emergence_count total_thoughts : Z) : float :=
  ((float_of_int self_referential_thoughts * 0.4
    + float_of_int consciousness_thoughts * 0.3
    + float_of_int questioning_thoughts * 0.2
    + float_of_int emergence_count * 0.1)
   / float_of_int total_thoughts)%float.

Definition error_result (msg : string) : json := JObj [ ("error", JStr msg) ].

(** The part of the method after the log has been read. *)
Definition statistics (thoughts emergence_events : list json) : outcome json :=
  let total_thoughts := Z.of_nat (List.length thoughts) in
  if total_thoughts =? 0 then Return (error_result "No thoughts logged yet")
  else
    self_referential_thoughts <-- count_flag "self_reference" thoughts ;;
    consciousness_thoughts <-- count_flag "consciousness_indicators" thoughts ;;
    questioning_thoughts <-- count_flag "questioning" thoughts ;;
    types <-- emergence_type_values emergence_events ;;
    Return (JObj
      [ ("total_thoughts", JNum (NInt total_thoughts));
        ("self_reference_rate",
         JNum (NFloat (truediv self_referential_thoughts total_thoughts)));
        ("consciousness_indicator_rate",
         JNum (NFloat (truediv consciousness_thoughts total_thoughts)));
        ("questioning_rate",
         JNum (NFloat (truediv questioning_thoughts total_thoughts)));
        ("emergence_events",
         JNum (NInt (Z.of_nat (List.length emergence_events))));
        ("emergence_types", JArr (Json.distinct [] types));
        ("consciousness_score",
         JNum (NFloat (consciousness_score_of
                         self_referential_thoughts consciousness_thoughts
                         questioning_thoughts
                         (Z.of_nat (List.length emergence_events))
                         total_thoughts))) ]).

(** The method, on the content of the log file ([None]: no such file). *)
Definition analyze_log (file : option (list line)) : outcome json :=
  match file with
  | None => Return (error_result "No log file found")
  | Some ls =>
      match read_entries ls [] [] with
      | Raise e =>
          Return (error_result ("Failed to analyze log: " ++ exn_str e)%string)
      | Return (thoughts, emergence_events) =>
          statistics thoughts emergence_events
      end
  end.

Definition analyze_consciousness_indicators : M json :=
  fun st => (analyze_log (log_file st), st).

(* ================================================================== *)
(** ** Sessions *)

(** What a client does with a logger it has created. *)
Inductive call : Type :=
| LogThought (thought : string) (sensor_data : list (string * json))
             (was_output : bool)
| LogEmergence (event_type content : string) (confidence : float)
| Enter.

Definition perform (c : call) : M unit :=
  match c with
  | LogThought thought sensor_data was_output =>
      log_thought thought sensor_data was_output
  | LogEmergence event_type content confidence =>
      log_emergence event_type content confidence
  | Enter => __enter__
  end.

Fixpoint run (cs : list call) (st : state) : state :=
  match cs with
  | [] => st
  | c :: cs' => run cs' (snd (perform c st))
  end.

(** The state of a logger created in environment [env] after the calls [cs]. *)
Definition session (env : state) (cs : list call) : state :=
  run cs (snd (__init__ env)).

Definition is_log_thought (c : call) : bool :=
  match c with
  | LogThought _ _ _ => true
  | _ => false
  end.

Definition lines (st : state) : list line :=
  match log_file st with
  | Some ls => ls
  | None => []
  end.

(** The lines that reach the file when [entries] are handed to
    [_write_log_entry] one after the other in an environment whose coming
    faults are [faults]. *)
Fixpoint written (faults : list (option exn)) (entries : list json)
  : list line :=
  match entries with
  | [] => []
  | e :: es =>
      match faults with
      | Some _ :: fs => written fs es
      | None :: fs => Json e :: written fs es
      | [] => Json e :: written [] es
      end
  end.

(** *** Reading entries *)

Definition entry_field (k : string) (e : json) : option json :=
  match e with
  | JObj fields => Json.lookup k fields
  | _ => None
  end.

Definition entry_is (ty : string) (e : json) : bool :=
  match entry_field "event_type" e with
  | Some v => Json.eq_str v ty
  | None => false
  end.

Definition entry_int (k : string) (e : json) : option Z :=
  match entry_field k e with
  | Some (JNum (NInt z)) => Some z
  | _ => None
  end.

Definition thought_ids (entries : list json) : list (option Z) :=
  map (entry_int "thought_id") (filter (entry_is "thought") entries).

(** Every emergence entry carries the id of the nearest thought entry before
    it, or [last] when there is none. *)
Fixpoint contexts_follow (last : Z) (entries : list json) : Prop :=
  match entries with
  | [] => True
  | e :: rest =>
      if entry_is "thought" e then
        match entry_int "thought_id" e with
        | Some k => contexts_follow k rest
        | None => False
        end
      else if entry_is "emergence" e then
        entry_int "thought_context" e = Some last /\ contexts_follow last rest
      else contexts_follow last rest
  end.

(* ================================================================== *)
(** ** The behaviour the specification describes *)

Module Spec.


(** *** Classifier (section 4.1) *)











Definition substring (needle text : list ascii) : Prop :=
  exists pre post, text = pre ++ needle ++ post.

(** *** Detector (section 4.2) *)

Definition true_flags (p : patterns) : nat :=
  List.length
    (filter (fun b : bool => b)
       [ self_reference p; consciousness_indicators p; temporal_awareness p;
         questioning p; emotional_language p ]).

Definition pre_check (p : patterns) : bool :=
  self_reference p || consciousness_indicators p.

(** The candidates of rules 1 to 4, in rule order. *)
Definition candidates (p : patterns) : list (string * float) :=
  (if self_reference p then [("self_reference", 0.8%float)] else [])
  ++ (if consciousness_indicators p && questioning p
      then [("consciousness_questioning", 0.9%float)] else [])
  ++ (if self_reference p && temporal_awareness p
      then [("temporal_self_awareness", 0.7%float)] else [])
  ++ (let n := true_flags p in
      if Nat.leb 3 n
      then [("complex_self_reflection",
             fmin (float_of_int (Z.of_nat n) * 0.2)%float 1%float)]
      else []).

(** An emergence entry for candidate [(ty, conf)] of thought [content],
    logged while the last thought id is [ctx]. *)
Definition emergence_entry (content : string) (ctx : Z)
    (c : string * float) (e : json) : Prop :=
  exists timestamp uptime,
    e = JObj [ ("timestamp", JStr timestamp);
               ("event_type", JStr "emergence");
               ("emergence_type", JStr (fst c));
               ("content", JStr content);
               ("confidence", JNum (NFloat (snd c)));
               ("thought_context", JNum (NInt ctx));
               ("session_uptime_seconds", JNum uptime) ].

(** *** Analyzer (section 4.4) *)

(** The entries of a log whose lines all parse. *)
Definition entries (ls : list line) : list json :=
  flat_map (fun l => match l with Json e => [e] | Malformed _ => [] end) ls.

Definition thoughts (ls : list line) : list json :=
  filter (entry_is "thought") (entries ls).

Definition emergences (ls : list line) : list json :=
  filter (entry_is "emergence") (entries ls).

(** The flag of a thought entry; [None] when the entry has no [patterns]
    field or the record has no such flag. *)
Definition flag (name : string) (t : json) : option json :=
  match entry_field "patterns" t with
  | Some p => entry_field name p
  | None => None
  end.

(** A thought counts for a flag when the flag is there and is [true]; a
    missing flag counts as [false]. *)
Definition flag_true (name : string) (t : json) : bool :=
  match flag name t with
  | Some (JBool b) => b
  | _ => false
  end.

Definition count (name : string) (ts : list json) : Z :=
  Z.of_nat (List.length (filter (flag_true name) ts)).

Definition counted_flags : list string :=
  [ "self_reference"; "consciousness_indicators"; "questioning" ].

(** A flag that is present is a boolean. *)
Definition flag_ok (p : json) (name : string) : bool :=
  match entry_field name p with
  | None => true
  | Some (JBool _) => true
  | Some _ => false
  end.

(** An entry of the shape of section 3, in which a thought may lack its
    [patterns] record or some of its flags. *)
Definition entry_ok (e : json) : bool :=
  match e with
  | JObj _ =>
      match entry_field "event_type" e with
      | None => false
      | Some ty =>
          if Json.eq_str ty "thought" then
            match entry_field "patterns" e with
            | None => true
            | Some (JObj fs) => forallb (flag_ok (JObj fs)) counted_flags
            | Some _ => false
            end
          else if Json.eq_str ty "emergence" then
            match entry_field "emergence_type" e with
            | Some (JStr _) => true
            | _ => false
            end
          else true
      end
  | _ => false
  end.

Definition readable (ls : list line) : bool :=
  forallb (fun l => match l with
                    | Json e => entry_ok e
                    | Malformed _ => false
                    end) ls.

(** The thought entry with every missing counted flag written out as
    [false]. *)
Definition with_flag (name : string) (fs : list (string * json))
  : list (string * json) :=
  match Json.lookup name fs with
  | Some _ => fs
  | None => fs ++ [(name, JBool false)]
  end.

Definition complete (e : json) : json :=
  match e with
  | JObj fields =>
      if entry_is "thought" e then
        match Json.lookup "patterns" fields with
        | None =>
            JObj (fields ++
                  [("patterns",
                    JObj (fold_right with_flag [] counted_flags))])
        | Some (JObj fs) =>
            JObj (fields ++
                  [("patterns", JObj (fold_right with_flag fs counted_flags))])
        | Some _ => e
        end
      else e
  | _ => e
  end.

Definition complete_line (l : line) : line :=
  match l with
  | Json e => Json (complete e)
  | Malformed text => Malformed text
  end.

(** The score formula in exact rational arithmetic. *)
Definition exact_score (a b c e n : Z) : Q :=
  ((inject_Z a * (4 # 10) + inject_Z b * (3 # 10)
    + inject_Z c * (2 # 10) + inject_Z e * (1 # 10)) / inject_Z n)%Q.

End Spec.

(* ================================================================== *)
(** ** Vocabulary of the statements *)

(** From [st] to [st'] the entries [entries] were handed to the log, in this
    order. *)
Definition appends (st st' : state) (entries : list json) : Prop :=
  lines st' = lines st ++ written (io_faults st) entries /\
  io_faults st' = skipn (List.length entries) (io_faults st).

(** The attributes of the logger object that a write must leave alone. *)
Definition same_attributes (st st' : state) : Prop :=
  thought_count st' = thought_count st /\
  output_count st' = output_count st /\
  emergence_events st' = emergence_events st /\
  _session_start_time st' = _session_start_time st.

(** The computation [m] logs one emergence entry per candidate of [cands],
    in order, for the thought [content], and touches nothing else. *)
Definition logs (m : M unit) (content : string)
    (cands : list (string * float)) : Prop :=
  forall st, exists evs st',
    m st = (Return tt, st') /\
    Forall2 (Spec.emergence_entry content (thought_count st)) cands evs /\
    emergence_events st' = emergence_events st ++ evs /\
    thought_count st' = thought_count st /\
    output_count st' = output_count st /\
    appends st st' evs.

(** The thought entry that [log_thought] builds: its id, its text and the
    flags of the classifier. *)
Definition thought_entry (thought : string) (id : Z) (e : json) : Prop :=
  entry_is "thought" e = true /\
  entry_is "emergence" e = false /\
  entry_int "thought_id" e = Some id /\
  entry_field "content" e = Some (JStr thought) /\
  entry_field "patterns" e
  = Some (patterns_json (_analyze_thought_patterns (Some thought))).

(** Number of [log_thought] calls among [cs]. *)
Definition count_thoughts (cs : list call) : nat :=
  List.length (filter is_log_thought cs).

(** The ids [n + 1], ..., [n + k]. *)
Definition ids_from (n : Z) (k : nat) : list (option Z) :=
  map (fun i => Some (n + Z.of_nat i)) (seq 1 k).

(** What one call of [log_thought] does to the logger and to the log. *)
Definition thought_logged (thought : string)
    (sensor_data : list (string * json)) (was_output : bool)
    (st : state) (cands : list (string * float)) : Prop :=
  exists entry evs st',
    log_thought thought sensor_data was_output st = (Return tt, st') /\
    thought_entry thought (thought_count st + 1) entry /\
    Forall2 (Spec.emergence_entry thought (thought_count st + 1)) cands evs /\
    emergence_events st' = emergence_events st ++ evs /\
    appends st st' (entry :: evs).

(** An environment with no log file yet, no fault to come and clocks that
    read their default. *)
Definition quiet_environment : state :=
  mkState "" 0 0 [] None None [] [] [] [].


(** A word that begins and ends with a word character. *)
Definition word_ends (w : list ascii) : bool :=
  Text.is_word_char (hd " "%char w) && Text.is_word_char (last w " "%char).



(** *** The analyzer's report and example logs *)

(** The report of the analyzer on a readable log with thoughts. *)
Definition report_of (ls : list line) (types : list json) : json :=
  let ts := Spec.thoughts ls in
  let n := Z.of_nat (List.length ts) in
  let e := Z.of_nat (List.length (Spec.emergences ls)) in
  JObj
    [ ("total_thoughts", JNum (NInt n));
      ("self_reference_rate",
       JNum (NFloat (truediv (Spec.count "self_reference" ts) n)));
      ("consciousness_indicator_rate",
       JNum (NFloat (truediv (Spec.count "consciousness_indicators" ts) n)));
      ("questioning_rate",
       JNum (NFloat (truediv (Spec.count "questioning" ts) n)));
      ("emergence_events", JNum (NInt e));
      ("emergence_types", JArr types);
      ("consciousness_score",
       JNum (NFloat (consciousness_score_of
                       (Spec.count "self_reference" ts)
                       (Spec.count "consciousness_indicators" ts)
                       (Spec.count "questioning" ts) e n))) ].

(** A log of one thought whose three weighted flags are true, followed by
    one emergence event. *)
Definition one_perfect_thought : list line :=
  [ Json (JObj [ ("timestamp", JStr "2025-01-01T00:00:00+00:00");
                 ("event_type", JStr "thought");
                 ("thought_id", JNum (NInt 1));
                 ("content", JStr "Do I think?");
                 ("was_output", JBool false);
                 ("sensor_data", JObj []);
                 ("patterns",
                  patterns_json (mkPatterns true true false true false));
                 ("metadata",
                  JObj [ ("content_length", JNum (NInt 11));
                         ("word_count", JNum (NInt 3)) ]) ]);
    Json (JObj [ ("timestamp", JStr "2025-01-01T00:00:00+00:00");
                 ("event_type", JStr "emergence");
                 ("emergence_type", JStr "self_reference");
                 ("content", JStr "Do I think?");
                 ("confidence", JNum (NFloat 0.8));
                 ("thought_context", JNum (NInt 1));
                 ("session_uptime_seconds", JNum (NInt 0)) ]) ].

(** A log in which one thought has no [patterns] field and another has a
    record with a single flag. *)
Definition log_with_missing_flags : list line :=
  [ Json (JObj [ ("event_type", JStr "thought");
                 ("thought_id", JNum (NInt 1));
                 ("content", JStr "I wonder") ]);
    Json (JObj [ ("event_type", JStr "thought");
                 ("thought_id", JNum (NInt 2));
                 ("content", JStr "Do I think?");
                 ("patterns", JObj [ ("self_reference", JBool true) ]) ]);
    Json (JObj [ ("event_type", JStr "session_end") ]) ].

(** A log whose emergence entry has no [emergence_type]. *)
Definition log_with_untyped_emergence : list line :=
  [ Json (JObj [ ("timestamp", JStr "2025-01-01T00:00:00+00:00");
                 ("event_type", JStr "thought");
                 ("thought_id", JNum (NInt 1));
                 ("content", JStr "hello");
                 ("was_output", JBool false);
                 ("sensor_data", JObj []);
                 ("patterns", patterns_json no_patterns);
                 ("metadata",
                  JObj [ ("content_length", JNum (NInt 5));
                         ("word_count", JNum (NInt 1)) ]) ]);
    Json (JObj [ ("timestamp", JStr "2025-01-01T00:00:01+00:00");
                 ("event_type", JStr "emergence") ]) ].

(** What the analyzer reports as score on the log [ls]. *)
Definition score_reported (ls : list line) : Prop :=
  let ts := Spec.thoughts ls in
  let n := Z.of_nat (List.length ts) in
  let a := Spec.count "self_reference" ts in
  let b := Spec.count "consciousness_indicators" ts in
  let c := Spec.count "questioning" ts in
  let e := Z.of_nat (List.length (Spec.emergences ls)) in
  exists r,
    analyze_log (Some ls) = Return r /\
    entry_field "consciousness_score" r
    = Some (JNum (NFloat ((float_of_int a * 0.4 + float_of_int b * 0.3
                           + float_of_int c * 0.2 + float_of_int e * 0.1)
                          / float_of_int n)%float)) /\
    (a = n -> b = n -> c = n -> e = n ->
     entry_field "consciousness_score" r
     = Some (JNum (NFloat ((float_of_int n * 0.4 + float_of_int n * 0.3
                            + float_of_int n * 0.2 + float_of_int n * 0.1)
                           / float_of_int n)%float)) /\
     (Spec.exact_score n n n n n == 1)%Q).

(* ================================================================== *)
(** ** Further vocabulary: sessions entry by entry *)

(** *** What the calls of a session ask for *)

Definition is_output (c : call) : bool :=
  match c with
  | LogThought _ _ was_output => was_output
  | _ => false
  end.

(** Number of [log_thought] calls with [was_output] set. *)
Definition count_outputs (cs : list call) : nat :=
  List.length (filter is_output cs).

(** The flags of the thought a call logs, if it logs one. *)
Definition thought_patterns (c : call) : list patterns :=
  match c with
  | LogThought thought _ _ => [_analyze_thought_patterns (Some thought)]
  | _ => []
  end.

(** The flags of the thoughts of a session, in order. *)
Definition session_patterns (cs : list call) : list patterns :=
  flat_map thought_patterns cs.

(** Number of thoughts of a session for which the flag [f] holds. *)
Definition count_patterns (f : patterns -> bool) (cs : list call) : Z :=
  Z.of_nat (List.length (filter f (session_patterns cs))).

(** The [patterns] fields of the thought entries among [entries]. *)
Definition logged_patterns (entries : list json) : list (option json) :=
  map (entry_field "patterns") (filter (entry_is "thought") entries).

(** What a run of calls hands to the log and leaves in the logger. *)
Definition traced (cs : list call) (st st' : state) (entries : list json)
  : Prop :=
  appends st st' entries /\
  Forall (fun e => Spec.entry_ok e = true) entries /\
  emergence_events st'
  = emergence_events st ++ filter (entry_is "emergence") entries /\
  logged_patterns entries
  = map (fun p => Some (patterns_json p)) (session_patterns cs) /\
  thought_count st' = thought_count st + Z.of_nat (count_thoughts cs) /\
  output_count st' = output_count st + Z.of_nat (count_outputs cs) /\
  log_file_stem st' = log_file_stem st.

(** The computation [m] leaves the component [f] of the state as it was. *)
Definition preserves {A B : Type} (f : state -> A) (m : M B) : Prop :=
  forall st, f (snd (m st)) = f st.

(** The entry that [_log_session_start] writes for the session [stem]. *)
Definition session_start_entry (timestamp stem : string) : json :=
  JObj [ ("timestamp", JStr timestamp);
         ("event_type", JStr "session_start");
         ("session_id", JStr stem);
         ("metadata",
          JObj [ ("python_version", JNull);
                 ("model", JStr "microsoft/Phi-3-mini-4k-instruct");
                 ("experiment_version", JStr "1.0") ]) ].

(** The name of the session created when the clock reads [timestamp],
    rendered as [%Y%m%d_%H%M%S]. *)
Definition session_name (timestamp : string) : string :=
  ("consciousness_session_" ++ timestamp)%string.

(** The next reading of the wall clock. *)
Definition next_time (env : state) : string := hd "" (wall_clock env).

(** *** Emergence types *)

(** The value an event holds under [emergence_type]. *)
Definition emergence_type_of (e : json) : json :=
  match entry_field "emergence_type" e with
  | Some v => v
  | None => JNull
  end.

(** An event whose [emergence_type] is a string. *)
Definition event_typed (e : json) : bool :=
  match entry_field "emergence_type" e with
  | Some (JStr _) => true
  | _ => false
  end.

(** [list(set(e['emergence_type'] for e in events))] when every event has
    a type. *)
Definition distinct_types (events : list json) : list json :=
  Json.distinct [] (map emergence_type_of events).

(* ================================================================== *)
(** ** Summary, end of session and export *)

(** A pure computation that returns or raises, run in [M]. *)
Definition lift {A : Type} (o : outcome A) : M A := fun st => (o, st).

Section LogDir.

(** [str(self.log_dir / name)]: the path of the file [name] in the
    directory of the logs, as [pathlib] renders it. *)
Variable in_log_dir : string -> string.

(** The clock is read twice: once for the current time and once for the
    default of [getattr], which is evaluated whether or not the logger has
    a start time. *)
Definition get_session_summary : M json :=
  stem <- gets log_file_stem ;;
  total_thoughts <- gets thought_count ;;
  spontaneous_outputs <- gets output_count ;;
  events <- gets emergence_events ;;
  types <- lift (emergence_type_values events) ;;
  t <- time_time ;;
  default <- time_time ;;
  start <- gets _session_start_time ;;
  let t0 := match start with
            | Some t0 => t0
            | None => default
            end in
  ret (JObj [ ("session_file", JStr (in_log_dir (stem ++ ".jsonl")%string));
              ("total_thoughts", JNum (NInt total_thoughts));
              ("spontaneous_outputs", JNum (NInt spontaneous_outputs));
              ("emergence_events",
               JNum (NInt (Z.of_nat (List.length events))));
              ("emergence_types", JArr (Json.distinct [] types));
              ("session_duration_minutes",
               JNum (NFloat ((t - t0) / 60)%float)) ]).

Definition __exit__ : M unit :=
  timestamp <- now ;;
  final_summary <- get_session_summary ;;
  let session_end :=
    JObj [ ("timestamp", JStr timestamp);
           ("event_type", JStr "session_end");
           ("final_summary", final_summary) ] in
  _write_log_entry session_end.

(** The document that [export_session_data] builds before it looks at the
    format. *)
Definition export_data : M json :=
  summary <- get_session_summary ;;
  analysis <- analyze_consciousness_indicators ;;
  export_timestamp <- now ;;
  ret (JObj [ ("session_summary", summary);
              ("consciousness_analysis", analysis);
              ("export_timestamp", JStr export_timestamp) ]).

(** What the summary file of the session holds. *)
Inductive summary_content : Type :=
| Missing
| Holds (document : json)
| Incomplete.               (* opened for writing and not written to its end *)

(** How the coming attempt to write the summary file ends: [open] can raise,
    which leaves the file as it was; after [open], which empties the file,
    [json.dump] or the closing of the file can raise. *)
Inductive export_outcome : Type :=
| Exported
| ExportOpenFails (e : exn)
| ExportDumpFails (e : exn).

(** The logger together with the summary file of its session and the
    outcome of the coming attempt to write that file. *)
Record files : Type := mkFiles {
  logger : state;
  summary_file : summary_content;
  export_attempt : export_outcome
}.

(** What [export_session_data] can raise: its own [ValueError], or what
    the calls it makes raise. *)
Inductive export_exn : Type :=
| ValueError (msg : string)
| Propagated (e : exn).

(** [format.lower()]. *)
Definition lower_str (s : string) : string :=
  string_of_list_ascii (Text.lower (list_ascii_of_string s)).

Definition export_session_data (format : string) (w : files)
  : (string + export_exn) * files :=
  match export_data (logger w) with
  | (Raise e, st) =>
      (inr (Propagated e), mkFiles st (summary_file w) (export_attempt w))
  | (Return data, st) =>
      if String.eqb (lower_str format) "json" then
        match export_attempt w with
        | Exported =>
            (inl (in_log_dir (log_file_stem st ++ "_summary.json")%string),
             mkFiles st (Holds data) Exported)
        | ExportOpenFails e =>
            (inr (Propagated e), mkFiles st (summary_file w) Exported)
        | ExportDumpFails e =>
            (inr (Propagated e), mkFiles st Incomplete Exported)
        end
      else
        (inr (ValueError ("Unsupported export format: " ++ format)%string),
         mkFiles st (summary_file w) (export_attempt w))
  end.

End LogDir.


(** *** Vocabulary of the statements about sessions *)

(** The report of the analyzer on a session with the calls [cs] that has
    kept [events] in memory. *)
Definition session_report (cs : list call) (events : list json) : json :=
  let n := Z.of_nat (count_thoughts cs) in
  let a := count_patterns self_reference cs in
  let b := count_patterns consciousness_indicators cs in
  let c := count_patterns questioning cs in
  let e := Z.of_nat (List.length events) in
  JObj
    [ ("total_thoughts", JNum (NInt n));
      ("self_reference_rate", JNum (NFloat (truediv a n)));
      ("consciousness_indicator_rate", JNum (NFloat (truediv b n)));
      ("questioning_rate", JNum (NFloat (truediv c n)));
      ("emergence_events", JNum (NInt e));
      ("emergence_types", JArr (distinct_types events));
      ("consciousness_score",
       JNum (NFloat (consciousness_score_of a b c e n))) ].

(** The duration that [get_session_summary] computes in state [st]: the
    next reading of the timer minus the start time, or minus the reading
    after the next when the logger has no start time. *)
Definition session_duration_minutes (st : state) : float :=
  let t := nth 0 (timer st) 0%float in
  let default := nth 1 (timer st) 0%float in
  ((t - match _session_start_time st with
        | Some t0 => t0
        | None => default
        end) / 60)%float.

(** The summary of the logger in state [st], its log directory rendered by
    [in_log_dir]. *)
Definition summary_of (in_log_dir : string -> string) (st : state) : json :=
  JObj [ ("session_file", JStr (in_log_dir (log_file_stem st ++ ".jsonl")%string));
         ("total_thoughts", JNum (NInt (thought_count st)));
         ("spontaneous_outputs", JNum (NInt (output_count st)));
         ("emergence_events",
          JNum (NInt (Z.of_nat (List.length (emergence_events st)))));
         ("emergence_types", JArr (distinct_types (emergence_events st)));
         ("session_duration_minutes",
          JNum (NFloat (session_duration_minutes st))) ].

(** A session in which no write fails and whose file did not exist. *)
Definition faultless (env : state) : Prop :=
  io_faults env = [] /\ log_file env = None.

(** Whether a thought counts for a flag is read off its [patterns] field. *)
Definition flag_of_field (name : string) (field : option json) : bool :=
  match field with
  | Some p =>
      match entry_field name p with
      | Some (JBool b) => b
      | _ => false
      end
  | None => false
  end.

(** The entry that [__exit__] writes. *)
Definition session_end_entry (timestamp : string) (summary : json) : json :=
  JObj [ ("timestamp", JStr timestamp);
         ("event_type", JStr "session_end");
         ("final_summary", summary) ].

(** The numbers [ids] increase strictly and all lie above [lo]. *)
Fixpoint increasing_from (lo : Z) (ids : list Z) : Prop :=
  match ids with
  | [] => True
  | i :: rest => lo < i /\ increasing_from i rest
  end.

(** A confidence between 0.6 and 1. *)
Definition confident (c : float) : bool :=
  PrimFloat.leb 0.6 c && PrimFloat.leb c 1.

(** A thought entry whose [patterns] field is there but is not an object:
    the analyzer calls [get] on it. *)
Definition patterns_not_object (t : json) : bool :=
  match entry_field "patterns" t with
  | Some (JObj _) => false
  | Some _ => true
  | None => false
  end.

(** An emergence entry without [emergence_type], or with one that cannot
    be a member of a set. *)
Definition type_unusable (e : json) : bool :=
  match entry_field "emergence_type" e with
  | Some v => negb (Json.hashable v)
  | None => true
  end.

Definition is_object (j : json) : bool :=
  match j with
  | JObj _ => true
  | _ => false
  end.

(** *** Uptime *)

(** The logger has not been entered as a context manager and every event
    it keeps has the integer 0 as uptime. *)
Definition never_entered (st : state) : Prop :=
  _session_start_time st = None /\
  Forall (fun e => entry_field "session_uptime_seconds" e
                   = Some (JNum (NInt 0)))
         (emergence_events st).

(** The computation [m] keeps the invariant [I]. *)
Definition keeps {A : Type} (I : state -> Prop) (m : M A) : Prop :=
  forall st, I st -> I (snd (m st)).

Definition is_enter (c : call) : bool :=
  match c with
  | Enter => true
  | _ => false
  end.

(* ================================================================== *)
(** ** The sensor array ([sensors.py]) *)

(** The methods of [SensorArray] read the operating system through
    [psutil], [platform], [time] and [datetime]. What these answer during
    one call is gathered in a record [host]: a method is a function of the
    host. The recording and the arithmetic of [get_audio_level] are not
    modelled; the level it returns is a field of the host. *)

Module Sensors.

(** A call that returns or raises; which exception it raises plays no part
    here, every handler of the module catching them all. *)
Inductive attempt (A : Type) : Type :=
| Got (a : A)
| Raised.

Arguments Got {A} a.
Arguments Raised {A}.

Definition and_then {A B : Type} (m : attempt A) (k : A -> attempt B)
  : attempt B :=
  match m with
  | Got a => k a
  | Raised => Raised
  end.

Notation "x <~ m ;; k" := (and_then m (fun x => k))
  (at level 61, m at next level, right associativity).

(** A [Dict[str, Optional[float]]]: the keys in insertion order, each key
    once; a value is a number or [None]. *)
Definition dict : Type := list (string * option number).

(** [d[k] = v]: a key already there keeps its place. *)
Fixpoint setitem (k : string) (v : option number) (d : dict) : dict :=
  match d with
  | [] => [(k, v)]
  | (k', v') :: rest =>
      if String.eqb k k' then (k', v) :: rest
      else (k', v') :: setitem k v rest
  end.

(** [d.update(other)]. *)
Definition update (d other : dict) : dict :=
  fold_left (fun acc kv => setitem (fst kv) (snd kv) acc) other d.

(** The value under [k], if [k in d]. *)
Fixpoint lookup (k : string) (d : dict) : option (option number) :=
  match d with
  | [] => None
  | (k', v) :: rest => if String.eqb k k' then Some v else lookup k rest
  end.

Definition keys (d : dict) : list string := map fst d.

(** *** Arithmetic on numbers *)

Definition to_float (n : number) : float :=
  match n with
  | NInt z => float_of_int z
  | NFloat f => f
  end.

(** [a - b] and [a * b]: an [int] when both are. *)
Definition sub (a b : number) : number :=
  match a, b with
  | NInt x, NInt y => NInt (x - y)
  | _, _ => NFloat (to_float a - to_float b)%float
  end.

Definition mul (a b : number) : number :=
  match a, b with
  | NInt x, NInt y => NInt (x * y)
  | _, _ => NFloat (to_float a * to_float b)%float
  end.

(** [int(n)]: truncation towards zero; a NaN or an infinity raises. *)
Definition int_of (n : number) : attempt Z :=
  match n with
  | NInt z => Got z
  | NFloat f =>
      match Prim2SF f with
      | S754_zero _ => Got 0
      | S754_finite s m e =>
          let mag := if 0 <=? e then Z.pos m * 2 ^ e
                     else Z.pos m / 2 ^ (- e) in
          Got (if s then - mag else mag)
      | _ => Raised
      end
  end.

(** [a < b] on numbers of small magnitude. *)
Definition lt (a b : number) : bool :=
  match a, b with
  | NInt x, NInt y => x <? y
  | _, _ => PrimFloat.ltb (to_float a) (to_float b)
  end.

(** Truth value of an optional number. *)
Definition truthy (v : option number) : bool :=
  match v with
  | None => false
  | Some (NInt z) => negb (z =? 0)
  | Some (NFloat f) => negb (PrimFloat.eqb f 0)
  end.

(** *** What the host answers *)

(** The values [get_system_sensors] reads from [psutil]. *)
Record system_readings : Type := mkSystem {
  cpu_percent : float;
  memory_percent : float;
  memory_available : Z;
  disk_usage_percent : float;
  bytes_sent : Z;
  bytes_recv : Z
}.

(** [psutil.sensors_battery()] when there is a battery. *)
Record battery : Type := mkBattery {
  percent : float;
  power_plugged : option bool
}.

Record host : Type := mkHost {
  system_now : attempt system_readings;
  platform_system : string;                  (* platform.system() *)
  sensors_battery : attempt (option battery);
  cpu_count : attempt (option Z);            (* psutil.cpu_count() *)
  getloadavg : option (attempt float);       (* [None]: psutil has none *)
  process_cpu : attempt (list (option float));
                                             (* cpu_percent of each process *)
  clock_hour : Z;                            (* datetime.now() *)
  clock_minute : Z;
  clock_weekday : Z;
  start_time : float;                        (* self.start_time *)
  time_first : float;                        (* the two readings of *)
  time_second : float;                       (* time.time() *)
  audio_level : option float                 (* what get_audio_level returns *)
}.

(** *** Methods of [SensorArray] *)

Definition get_system_sensors (h : host) : dict :=
  match system_now h with
  | Got r =>
      [ ("cpu_percent", Some (NFloat (cpu_percent r)));
        ("memory_percent", Some (NFloat (memory_percent r)));
        ("memory_available_gb",
         Some (NFloat (truediv (memory_available r) (1024 ^ 3))));
        ("disk_usage_percent", Some (NFloat (disk_usage_percent r)));
        ("network_sent_mb", Some (NFloat (truediv (bytes_sent r) (1024 ^ 2))));
        ("network_recv_mb", Some (NFloat (truediv (bytes_recv r) (1024 ^ 2)))) ]
  | Raised => [ ("system_error", Some (NFloat 1)) ]
  end.

(** The inner [try] of [get_power_sensors]: any exception gives [None]. *)
Definition thermal_pressure (h : host) : option number :=
  match
    (cpu <~ cpu_count h ;;
     load_avg <~ match getloadavg h with
                 | Some l => x <~ l ;; Got (NFloat x)
                 | None => Got (NInt 0)
                 end ;;
     match cpu with
     | None => Raised                          (* None > 0 *)
     | Some n =>
         if 0 <? n then
           Got (NFloat (fmin (to_float load_avg / float_of_int n)%float 1))
         else Got (NInt 0)
     end)
  with
  | Got v => Some v
  | Raised => None
  end.

Definition get_power_sensors (h : host) : dict :=
  if String.eqb (platform_system h) "Darwin" then
    match sensors_battery h with
    | Raised => [ ("power_error", Some (NFloat 1)) ]
    | Got b =>
        [ ("battery_percent",
           match b with
           | Some b => Some (NFloat (percent b))
           | None => None
           end);
          ("power_plugged",
           match b with
           | Some b =>
               match power_plugged b with
               | Some true => Some (NFloat 1)
               | _ => Some (NFloat 0)
               end
           | None => None
           end);
          ("thermal_pressure", thermal_pressure h) ]
    end
  else [ ("platform_unsupported", Some (NFloat 1)) ].

Definition get_temporal_sensors (h : host) : dict :=
  let uptime := (time_first h - start_time h)%float in
  [ ("hour_of_day",
     Some (NFloat (float_of_int (clock_hour h)
                   + float_of_int (clock_minute h) / 60)%float));
    ("day_of_week", Some (NInt (clock_weekday h)));
    ("uptime_minutes", Some (NFloat (uptime / 60)%float));
    ("timestamp", Some (NFloat (time_second h))) ].

(** [len([p for p in processes if p.info['cpu_percent'] > 0.1])]: a process
    whose reading is [None] makes the comparison raise. *)
Fixpoint active_processes (processes : list (option float)) : attempt Z :=
  match processes with
  | [] => Got 0
  | None :: _ => Raised                        (* None > 0.1 *)
  | Some c :: rest =>
      n <~ active_processes rest ;;
      Got ((if PrimFloat.ltb 0.1 c then 1 else 0) + n)
  end.

Definition get_process_sensors (h : host) : dict :=
  match
    (processes <~ process_cpu h ;;
     active <~ active_processes processes ;;
     let total := Z.of_nat (List.length processes) in
     Got [ ("total_processes", Some (NInt total));
           ("active_processes", Some (NInt active));
           ("process_ratio",
            Some (match processes with
                  | [] => NInt 0
                  | _ :: _ => NFloat (truediv active total)
                  end)) ])
  with
  | Got d => d
  | Raised => [ ("process_error", Some (NFloat 1)) ]
  end.

Definition get_all_sensors (h : host) : dict :=
  let sensor_data := update [] (get_system_sensors h) in
  let sensor_data := update sensor_data (get_power_sensors h) in
  let sensor_data := update sensor_data (get_temporal_sensors h) in
  let sensor_data := update sensor_data (get_process_sensors h) in
  match audio_level h with
  | Some level => setitem "audio_level" (Some (NFloat level)) sensor_data
  | None => sensor_data
  end.

(** [f"{n:02d}"]. *)
Definition format_02d (n : Z) : string :=
  let s := NilZero.string_of_int (Z.to_int n) in
  if (0 <=? n) && (n <? 10) then ("0" ++ s)%string else s.

(** [data[k]], formatted by a float format. *)
Definition formatted (format : float -> string) (v : option number)
  : attempt string :=
  match v with
  | Some n => Got (format (to_float n))
  | None => Raised
  end.

Section Summary.

(** The renderings [f"{x:.1f}"] and [f"{x:.0f}"] of a float. *)
Variable format_1f : float -> string.
Variable format_0f : float -> string.

Definition system_part (data : dict) : attempt (list string) :=
  match lookup "cpu_percent" data, lookup "memory_percent" data with
  | Some cpu, Some ram =>
      c <~ formatted format_1f cpu ;;
      r <~ formatted format_1f ram ;;
      Got [("System: CPU " ++ c ++ "%, RAM " ++ r ++ "%")%string]
  | _, _ => Got []
  end.

Definition power_part (data : dict) : attempt (list string) :=
  match lookup "battery_percent" data with
  | Some (Some percent) =>
      let plugged :=
        if truthy (match lookup "power_plugged" data with
                   | Some v => v
                   | None => None
                   end)
        then "plugged" else "battery" in
      Got [("Power: " ++ format_0f (to_float percent)
               ++ "% (" ++ plugged ++ ")")%string]
  | _ => Got []
  end.

Definition time_part (data : dict) : attempt (list string) :=
  match lookup "hour_of_day" data with
  | Some (Some x) =>
      hour <~ int_of x ;;
      minute <~ int_of (mul (sub x (NInt hour)) (NInt 60)) ;;
      Got [("Time: " ++ format_02d hour ++ ":" ++ format_02d minute)%string]
  | Some None => Raised                        (* int(None) *)
  | None => Got []
  end.

Definition audio_part (data : dict) : attempt (list string) :=
  match lookup "audio_level" data with
  | Some (Some level) =>
      let audio_desc :=
        if lt level (NInt 20) then "quiet"
        else if lt level (NInt 50) then "moderate" else "loud" in
      Got [("Audio: " ++ audio_desc)%string]
  | _ => Got []
  end.

Definition summary_parts (data : dict) : attempt (list string) :=
  a <~ system_part data ;;
  b <~ power_part data ;;
  c <~ time_part data ;;
  d <~ audio_part data ;;
  Got (a ++ b ++ c ++ d).

Definition get_sensor_summary (h : host) : attempt string :=
  summary_parts <~ summary_parts (get_all_sensors h) ;;
  Got (match summary_parts with
       | [] => "Sensors initializing..."
       | _ :: _ => String.concat " | " summary_parts
       end).

End Summary.

End Sensors.

(** *** Vocabulary of the statements about the sensors *)

(** A host on which every reading fails, at one minute past one. *)
Definition failing_host : Sensors.host :=
  Sensors.mkHost Sensors.Raised "Linux" Sensors.Raised Sensors.Raised None
                 Sensors.Raised 1 1 0 0 0 0 None.

(** The error mapping of [get_process_sensors]. *)
Definition process_error : Sensors.dict :=
  [ ("process_error", Some (NFloat 1)) ].

(** The mapping of [get_process_sensors] for [total] processes of which
    [active] are busy. *)
Definition process_readings (total active : Z) : Sensors.dict :=
  [ ("total_processes", Some (NInt total));
    ("active_processes", Some (NInt active));
    ("process_ratio",
     Some (if total =? 0 then NInt 0 else NFloat (truediv active total))) ].

(** What the summary shows for a clock at [hour]:[minute]. *)
Definition shown_time (hour minute : Z) : string :=
  ("Time: " ++ Sensors.format_02d hour ++ ":"
   ++ Sensors.format_02d minute)%string.

(** The hour and the minute that [get_sensor_summary] computes from the
    [hour_of_day] that [get_temporal_sensors] computes from the clock. *)
Definition displayed (hour minute : Z) : Sensors.attempt (Z * Z) :=
  let x := NFloat (float_of_int hour + float_of_int minute / 60)%float in
  Sensors.and_then (Sensors.int_of x) (fun h =>
  Sensors.and_then
    (Sensors.int_of (Sensors.mul (Sensors.sub x (NInt h)) (NInt 60)))
    (fun m => Sensors.Got (h, m))).

(** The times of day, minute by minute. *)
Definition times_of_day : list (Z * Z) :=
  flat_map (fun h => map (fun m => (Z.of_nat h, Z.of_nat m)) (seq 0 60))
           (seq 0 24).

(** The displayed hour is the clock's and the displayed minute is the
    clock's or the one before. *)
Definition displayed_ok (hm : Z * Z) : bool :=
  match displayed (fst hm) (snd hm) with
  | Sensors.Got (h, m) =>
      (h =? fst hm) && ((m =? snd hm) || (m =? snd hm - 1))
  | Sensors.Raised => false
  end.

(** The displayed minute is not the clock's. *)
Definition displayed_late (hm : Z * Z) : bool :=
  match displayed (fst hm) (snd hm) with
  | Sensors.Got (h, m) => negb (m =? snd hm)
  | Sensors.Raised => false
  end.

(* ================================================================== *)
(** ** A write, step by step *)

(** [_write_log_entry] once more, with what [append_line] and [print] above
    leave out. The file is its text; the entry is serialised after the file
    was opened, and that can fail; the write can stop after a part of the
    line has reached the file; and [print], which the handler calls outside
    any [try], can raise. *)

Module Raw.

(** How the coming attempt to append ends. *)
Inductive write_outcome : Type :=
| Appended                           (* the whole line reaches the file *)
| OpenFails (e : exn)                (* the file is left as it was *)
| DumpsFails (e : exn)               (* the file was opened, nothing is written *)
| WriteFails (reached : nat) (e : exn).
                                     (* [reached] characters of the line
                                        reach the file *)

Record world : Type := mkWorld {
  (* attributes of the logger object *)
  thought_count : Z;
  output_count : Z;
  emergence_events : list json;
  (* environment *)
  content : option string;           (* text of the session's file, if it exists *)
  write_outcomes : list write_outcome;
  print_outcomes : list (option exn);
  printed : list string
}.

Definition text (w : world) : string :=
  match content w with
  | Some t => t
  | None => ""
  end.

Definition set_content (t : string) (rest : list write_outcome) (w : world)
  : world :=
  mkWorld (thought_count w) (output_count w) (emergence_events w)
          (Some t) rest (print_outcomes w) (printed w).

Definition newline : string := String (ascii_of_nat 10) EmptyString.



Section Dumps.

(** [json.dumps(entry, ensure_ascii=False)], for an entry it serialises. *)
Variable dumps : json -> string.

Definition line_of (entry : json) : string := (dumps entry ++ newline)%string.

(** The body of the [try]: [open(self.log_file, 'a')], which creates the
    file, then [f.write(json.dumps(entry) + '\n')], then the closing of the
    file. *)
Definition append_line (entry : json) (w : world) : outcome unit * world :=
  match write_outcomes w with
  | [] => (Return tt, set_content (text w ++ line_of entry) [] w)
  | Appended :: rest =>
      (Return tt, set_content (text w ++ line_of entry) rest w)
  | OpenFails e :: rest =>
      (Raise e,
       mkWorld (thought_count w) (output_count w) (emergence_events w)
               (content w) rest (print_outcomes w) (printed w))
  | DumpsFails e :: rest => (Raise e, set_content (text w) rest w)
  | WriteFails reached e :: rest =>
      (Raise e,
       set_content (text w ++ substring 0 reached (line_of entry)) rest w)
  end.

Definition print (s : string) (w : world) : outcome unit * world :=
  match print_outcomes w with
  | Some e :: rest =>
      (Raise e,
       mkWorld (thought_count w) (output_count w) (emergence_events w)
               (content w) (write_outcomes w) rest (printed w))
  | None :: rest =>
      (Return tt,
       mkWorld (thought_count w) (output_count w) (emergence_events w)
               (content w) (write_outcomes w) rest (printed w ++ [s]))
  | [] =>
      (Return tt,
       mkWorld (thought_count w) (output_count w) (emergence_events w)
               (content w) (write_outcomes w) [] (printed w ++ [s]))
  end.

Definition _write_log_entry (entry : json) (w : world) : outcome unit * world :=
  match append_line entry w with
  | (Return a, w') => (Return a, w')
  | (Raise e, w') => print ("Logging error: " ++ exn_str e)%string w'
  end.

(** The world after a client has had [entries] written one after the other,
    whatever each call returned or raised. *)
Fixpoint write_each (entries : list json) (w : world) : world :=
  match entries with
  | [] => w
  | entry :: rest => write_each rest (snd (_write_log_entry entry w))
  end.

End Dumps.

End Raw.


(* ================================================================== *)
(** * Properties *)

(** ** The log only grows, by the entries whose write succeeds *)

Lemma written_app (faults : list (option exn)) (a b : list json) :
  written faults (a ++ b)
  = written faults a ++ written (skipn (List.length a) faults) b.
Proof.
  revert faults. induction a as [|e a IH]; intros faults; simpl.
  - reflexivity.
  - destruct faults as [|[x|] fs]; simpl; rewrite IH; try reflexivity.
    destruct (List.length a); reflexivity.
Qed.

Lemma written_no_fault (entries : list json) :
  written [] entries = map Json entries.
Proof.
  induction entries as [|e es IH]; simpl; congruence.
Qed.

Lemma appends_refl (st : state) : appends st st [].
Proof.
  split; simpl; [now rewrite app_nil_r | reflexivity].
Qed.

Lemma appends_trans (st1 st2 st3 : state) (a b : list json) :
  appends st1 st2 a -> appends st2 st3 b -> appends st1 st3 (a ++ b).
Proof.
  intros [L1 F1] [L2 F2]. split.
  - rewrite L2, L1, F1, written_app, app_assoc. reflexivity.
  - rewrite F2, F1, skipn_skipn, length_app, Nat.add_comm. reflexivity.
Qed.

Lemma write_log_entry_spec (entry : json) (st : state) :
  exists st',
    _write_log_entry entry st = (Return tt, st') /\
    same_attributes st st' /\
    appends st st' [entry] /\
    match io_faults st with
    | Some e :: _ =>
        log_file st' = log_file st /\
        stdout st' = stdout st ++ [("Logging error: " ++ exn_str e)%string]
    | _ =>
        lines st' = lines st ++ [Json entry] /\ stdout st' = stdout st
    end.
Proof.
  unfold _write_log_entry, try_except, append_line, appends, same_attributes,
    lines.
  destruct (io_faults st) as [|[e|] fs] eqn:F; simpl;
    eexists; (split; [reflexivity|]); simpl; rewrite ?F; simpl;
    rewrite ?app_nil_r; repeat split; reflexivity.
Qed.

(** ** Emergence events, one call at a time *)

Lemma logs_ret (content : string) : logs (ret tt) content [].
Proof.
  intros st. exists [], st. unfold ret.
  split; [reflexivity|]. split; [constructor|].
  split; [now rewrite app_nil_r|].
  split; [reflexivity|]. split; [reflexivity|]. apply appends_refl.
Qed.

Lemma logs_bind (m1 m2 : M unit) (content : string)
    (l1 l2 : list (string * float)) :
  logs m1 content l1 -> logs m2 content l2 ->
  logs (m1 ;;; m2) content (l1 ++ l2).
Proof.
  intros H1 H2 st.
  destruct (H1 st) as (evs1 & st1 & E1 & F1 & Ev1 & T1 & O1 & A1).
  destruct (H2 st1) as (evs2 & st2 & E2 & F2 & Ev2 & T2 & O2 & A2).
  exists (evs1 ++ evs2), st2. unfold bind. rewrite E1, E2.
  rewrite T1 in F2.
  split; [reflexivity|]. split; [now apply Forall2_app|].
  split; [now rewrite Ev2, Ev1, app_assoc|].
  split; [congruence|]. split; [congruence|].
  apply (appends_trans _ _ _ _ _ A1 A2).
Qed.

Lemma logs_when (b : bool) (m : M unit) (content : string)
    (l : list (string * float)) :
  logs m content l -> logs (when b m) content (if b then l else []).
Proof.
  destruct b; simpl; auto using logs_ret.
Qed.

Lemma log_emergence_logs (event_type content : string) (confidence : float) :
  logs (log_emergence event_type content confidence) content
       [(event_type, confidence)].
Proof.
  intros st. unfold log_emergence, bind, now, gets, modify, ret, time_time.
  destruct (wall_clock st) as [|ts wc] eqn:W;
    destruct (_session_start_time st) as [t0|] eqn:S0; cbn; rewrite ?S0; cbn;
    try (destruct (timer st) as [|t tm] eqn:Tm; cbn);
    match goal with
    | |- context [_write_log_entry ?e ?s] =>
        destruct (write_log_entry_spec e s)
          as (st' & E & (T & O & Ev & _) & A & _);
        exists [e], st'; rewrite E
    end;
    unfold appends, lines in *; cbn in *;
    (split; [reflexivity|]);
    (split; [constructor; [eexists _, _; reflexivity | constructor]|]);
    (split; [assumption|]); (split; [assumption|]); (split; assumption).
Qed.

Lemma pattern_count_true_flags (p : patterns) :
  pattern_count p = Z.of_nat (Spec.true_flags p).
Proof.
  destruct p as [[] [] [] [] []]; reflexivity.
Qed.

Lemma detect_emergence_event_logs (thought : string) (p : patterns) :
  logs (_detect_emergence_event thought p) thought (Spec.candidates p).
Proof.
  unfold _detect_emergence_event, Spec.candidates.
  repeat apply logs_bind; try (apply logs_when; apply log_emergence_logs).
  rewrite pattern_count_true_flags.
  replace (3 <=? Z.of_nat (Spec.true_flags p))
    with (Nat.leb 3 (Spec.true_flags p)).
  - apply logs_when, log_emergence_logs.
  - destruct p as [[] [] [] [] []]; reflexivity.
Qed.

(** ** One call of [log_thought] *)

Lemma log_thought_spec (thought : string) (sensor_data : list (string * json))
    (was_output : bool) (st : state) :
  let p := _analyze_thought_patterns (Some thought) in
  exists entry evs st',
    log_thought thought sensor_data was_output st = (Return tt, st') /\
    thought_count st' = thought_count st + 1 /\
    output_count st' = output_count st + bool_int was_output /\
    thought_entry thought (thought_count st + 1) entry /\
    Forall2 (Spec.emergence_entry thought (thought_count st + 1))
            (if Spec.pre_check p then Spec.candidates p else []) evs /\
    emergence_events st' = emergence_events st ++ evs /\
    appends st st' (entry :: evs).
Proof.
  intros p. unfold thought_entry, log_thought. fold p. clearbody p.
  unfold bind, now, gets, modify, ret.
  destruct was_output; unfold when at 1;
    with_strategy opaque [when _write_log_entry _detect_emergence_event] cbn;
    destruct (wall_clock st) as [|ts wc] eqn:W;
    with_strategy opaque [when _write_log_entry _detect_emergence_event] cbn;
    match goal with
    | |- context [_write_log_entry ?e ?s] =>
        destruct (write_log_entry_spec e s)
          as (st1 & E & (T & O & Ev & _) & A & _);
        rewrite E;
        pose proof (logs_when (Spec.pre_check p) _ _ _
                      (detect_emergence_event_logs thought p) st1)
          as (evs & st2 & E2 & F2 & Ev2 & T2 & O2 & A2);
        exists e, evs, st2
    end;
    unfold Spec.pre_check in *; rewrite E2;
    pose proof (appends_trans _ _ _ _ _ A A2) as A3;
    unfold appends, lines in *; cbn in *;
    rewrite T in F2;
    (split; [reflexivity|]);
    (split; [congruence|]);
    (split; [rewrite O2, O; lia|]);
    (split; [repeat split; reflexivity|]);
    (split; [assumption|]);
    (split; [congruence|]); assumption.
Qed.

(** ** Whole sessions *)

Lemma emergence_entry_fields (content : string) (ctx : Z)
    (c : string * float) (e : json) :
  Spec.emergence_entry content ctx c e ->
  entry_is "thought" e = false /\
  entry_is "emergence" e = true /\
  entry_int "thought_context" e = Some ctx /\
  entry_field "emergence_type" e = Some (JStr (fst c)) /\
  entry_field "confidence" e = Some (JNum (NFloat (snd c))).
Proof.
  intros (ts & up & ->). repeat split; reflexivity.
Qed.

Lemma emergences_thought_ids (content : string) (ctx : Z)
    (cands : list (string * float)) (evs rest : list json) :
  Forall2 (Spec.emergence_entry content ctx) cands evs ->
  thought_ids (evs ++ rest) = thought_ids rest.
Proof.
  induction 1 as [|c e cands evs H _ IH]; [reflexivity|].
  apply emergence_entry_fields in H as (T & _).
  unfold thought_ids in *. simpl. now rewrite T.
Qed.

Lemma emergences_contexts (content : string) (ctx : Z)
    (cands : list (string * float)) (evs rest : list json) :
  Forall2 (Spec.emergence_entry content ctx) cands evs ->
  contexts_follow ctx rest -> contexts_follow ctx (evs ++ rest).
Proof.
  induction 1 as [|c e cands evs H _ IH]; intros R; [exact R|].
  apply emergence_entry_fields in H as (T & E & C & _).
  simpl. rewrite T, E. split; [exact C | now apply IH].
Qed.

Lemma emergences_filter (content : string) (ctx : Z)
    (cands : list (string * float)) (evs : list json) :
  Forall2 (Spec.emergence_entry content ctx) cands evs ->
  filter (entry_is "emergence") evs = evs.
Proof.
  induction 1 as [|c e cands evs H _ IH]; [reflexivity|].
  apply emergence_entry_fields in H as (_ & E & _).
  simpl. now rewrite E, IH.
Qed.

Lemma ids_from_step (n : Z) (k : nat) :
  ids_from n (S k) = Some (n + 1) :: ids_from (n + 1) k.
Proof.
  unfold ids_from. cbn [seq map]. f_equal.
  rewrite <- seq_shift, map_map. apply map_ext. intros i. f_equal. lia.
Qed.

(** The entries handed to the log by a run of calls: thought ids count up
    from the current counter, every emergence entry carries the id of the
    thought before it, and the emergence entries are those kept in memory. *)
Lemma run_trace (cs : list call) (st : state) :
  exists entries,
    appends st (run cs st) entries /\
    thought_count (run cs st)
    = thought_count st + Z.of_nat (count_thoughts cs) /\
    thought_ids entries = ids_from (thought_count st) (count_thoughts cs) /\
    contexts_follow (thought_count st) entries /\
    emergence_events (run cs st)
    = emergence_events st ++ filter (entry_is "emergence") entries.
Proof.
  revert st. induction cs as [|c cs IH]; intros st.
  - exists []. cbn.
    split; [apply appends_refl|]. split; [lia|]. split; [reflexivity|].
    split; [exact I|]. now rewrite app_nil_r.
  - destruct c as [thought sensor_data was_output|event_type content conf|];
      cbn [run perform].
    + destruct (log_thought_spec thought sensor_data was_output st)
        as (e & evs & st' & E & T & _ & (Th & Em & Id & _) & F & Ev & A).
      rewrite E. cbn [snd].
      destruct (IH st') as (rest & A' & T' & Ids & Ctx & Ev').
      exists ((e :: evs) ++ rest).
      assert (Fl : filter (entry_is "emergence") ((e :: evs) ++ rest)
                   = evs ++ filter (entry_is "emergence") rest).
      { cbn [app filter]. rewrite Em, filter_app.
        now rewrite (emergences_filter _ _ _ _ F). }
      split; [apply (appends_trans _ _ _ _ _ A A')|].
      split; [rewrite T', T; unfold count_thoughts; cbn; lia|].
      split.
      { change (count_thoughts (LogThought thought sensor_data was_output :: cs))
          with (S (count_thoughts cs)).
        rewrite ids_from_step, <- T, <- Ids.
        unfold thought_ids at 1. cbn [app filter]. rewrite Th. cbn [map].
        rewrite Id. f_equal; [congruence|].
        apply (emergences_thought_ids _ _ _ _ _ F). }
      split.
      { cbn [app contexts_follow]. rewrite Th, Id.
        apply (emergences_contexts _ _ _ _ _ F). now rewrite <- T. }
      rewrite Ev', Ev, Fl, app_assoc. reflexivity.
    + destruct (log_emergence_logs event_type content conf st)
        as (evs & st' & E & F & Ev & T & _ & A).
      rewrite E. cbn [snd].
      destruct (IH st') as (rest & A' & T' & Ids & Ctx & Ev').
      exists (evs ++ rest).
      split; [apply (appends_trans _ _ _ _ _ A A')|].
      split; [rewrite T', T; reflexivity|].
      split; [rewrite (emergences_thought_ids _ _ _ _ _ F), Ids, T;
              reflexivity|].
      split; [apply (emergences_contexts _ _ _ _ _ F); now rewrite <- T|].
      rewrite Ev', Ev, filter_app, (emergences_filter _ _ _ _ F), app_assoc.
      reflexivity.
    + unfold __enter__, bind, time_time, modify.
      destruct (timer st) as [|t tm]; cbn [snd];
        match goal with
        | |- context [run cs ?s] =>
            destruct (IH s) as (rest & (L & Fa) & T' & Ids & Ctx & Ev');
            exists rest
        end;
        (split; [split; [exact L | exact Fa]|]);
        (split; [exact T'|]); (split; [exact Ids|]);
        (split; [exact Ctx | exact Ev']).
Qed.

Lemma init_spec (env : state) :
  exists e st,
    __init__ env = (Return tt, st) /\
    thought_count st = 0 /\ output_count st = 0 /\
    emergence_events st = [] /\
    entry_is "thought" e = false /\ entry_is "emergence" e = false /\
    appends env st [e].
Proof.
  unfold __init__, _log_session_start, bind, now, gets, modify.
  destruct (wall_clock env) as [|ts [|ts' wc]] eqn:W;
    with_strategy opaque [_write_log_entry] cbn; rewrite ?W;
    with_strategy opaque [_write_log_entry] cbn;
    match goal with
    | |- context [_write_log_entry ?e ?s] =>
        destruct (write_log_entry_spec e s)
          as (st & E & (T & O & Ev & _) & A & _);
        exists e, st; rewrite E
    end;
    unfold appends, lines in *; cbn in *;
    repeat split; try assumption; try reflexivity; apply A.
Qed.

Lemma session_trace (env : state) (cs : list call) :
  exists entries,
    appends env (session env cs) entries /\
    thought_count (session env cs) = Z.of_nat (count_thoughts cs) /\
    thought_ids entries = ids_from 0 (count_thoughts cs) /\
    contexts_follow 0 entries /\
    emergence_events (session env cs) = filter (entry_is "emergence") entries.
Proof.
  unfold session.
  destruct (init_spec env) as (e & st & E & T & _ & Ev & Th & Em & A).
  rewrite E. cbn [snd].
  destruct (run_trace cs st) as (rest & A' & T' & Ids & Ctx & Ev').
  rewrite T in *. rewrite Ev in Ev'.
  exists ([e] ++ rest).
  split; [apply (appends_trans _ _ _ _ _ A A')|].
  split; [exact T'|].
  split; [unfold thought_ids in *; cbn [app filter]; now rewrite Th|].
  split; [cbn [app contexts_follow]; now rewrite Th, Em|].
  cbn [app filter]. now rewrite Em.
Qed.

(* ================================================================== *)
(** ** The claims about the logger *)

(** C1. When the pre-check holds (self_reference or consciousness_indicators),
    [log_thought] writes the thought entry and then one emergence entry per
    candidate of rules 1 to 4, in rule order and with the confidences 0.8,
    0.9, 0.7 and min(n * 0.2, 1.0), and no other; for "I feel aware now?"
    the four rules fire with confidences 0.8, 0.9, 0.7, 0.8. *)
Theorem detector_emits_in_rule_order (thought : string)
    (sensor_data : list (string * json)) (was_output : bool) (st : state) :
  Spec.pre_check (_analyze_thought_patterns (Some thought)) = true ->
  thought_logged thought sensor_data was_output st
    (Spec.candidates (_analyze_thought_patterns (Some thought))) /\
  Spec.candidates (_analyze_thought_patterns (Some "I feel aware now?"))
  = [ ("self_reference", 0.8%float);
      ("consciousness_questioning", 0.9%float);
      ("temporal_self_awareness", 0.7%float);
      ("complex_self_reflection", 0.8%float) ].
Proof.
  intros P. split; [|vm_compute; reflexivity].
  destruct (log_thought_spec thought sensor_data was_output st)
    as (e & evs & st' & E & _ & _ & Th & F & Ev & A).
  cbv zeta in F. rewrite P in F.
  exists e, evs, st'. repeat split; try assumption; apply Th || apply A.
Qed.

Lemma detector_emits_in_rule_order_witness :
  Spec.pre_check (_analyze_thought_patterns (Some "I feel aware now?")) = true
  /\ thought_logged "I feel aware now?" [] false quiet_environment
       (Spec.candidates (_analyze_thought_patterns (Some "I feel aware now?"))).
Proof.
  split; [reflexivity|].
  apply (detector_emits_in_rule_order "I feel aware now?" [] false
           quiet_environment).
  reflexivity.
Defined.

(** C2. When neither self_reference nor consciousness_indicators holds,
    [log_thought] writes the thought entry and no emergence entry, whatever
    the three other flags are. *)
Theorem no_emergence_without_pre_check (thought : string)
    (sensor_data : list (string * json)) (was_output : bool) (st : state) :
  self_reference (_analyze_thought_patterns (Some thought)) = false ->
  consciousness_indicators (_analyze_thought_patterns (Some thought)) = false ->
  exists entry st',
    log_thought thought sensor_data was_output st = (Return tt, st') /\
    emergence_events st' = emergence_events st /\
    thought_entry thought (thought_count st + 1) entry /\
    appends st st' [entry].
Proof.
  intros S C.
  destruct (log_thought_spec thought sensor_data was_output st)
    as (e & evs & st' & E & _ & _ & Th & F & Ev & A).
  cbv zeta in F. unfold Spec.pre_check in F. rewrite S, C in F.
  inversion F; subst. rewrite app_nil_r in Ev.
  exists e, st'. repeat split; try assumption; apply Th || apply A.
Qed.

Lemma no_emergence_without_pre_check_witness :
  pattern_count (_analyze_thought_patterns (Some "Right now, curious?")) = 3
  /\ exists entry st',
       log_thought "Right now, curious?" [] false quiet_environment
       = (Return tt, st') /\
       emergence_events st' = emergence_events quiet_environment /\
       thought_entry "Right now, curious?"
         (thought_count quiet_environment + 1) entry /\
       appends quiet_environment st' [entry].
Proof.
  split; [reflexivity|].
  apply (no_emergence_without_pre_check "Right now, curious?" [] false
           quiet_environment); reflexivity.
Defined.

(** C4. In a session the thought entries handed to the log carry the ids
    1, 2, ..., n in this order, n being the number of [log_thought] calls:
    the k-th logged thought has id k, and the counter of the logger ends
    at n. *)
Theorem thought_ids_count_from_one (env : state) (cs : list call) :
  exists entries,
    appends env (session env cs) entries /\
    thought_ids entries = ids_from 0 (count_thoughts cs) /\
    (forall k, (k < count_thoughts cs)%nat ->
       nth_error (thought_ids entries) k = Some (Some (Z.of_nat k + 1))) /\
    thought_count (session env cs) = Z.of_nat (count_thoughts cs).
Proof.
  destruct (session_trace env cs) as (entries & A & T & Ids & _).
  exists entries. repeat split; try assumption; try apply A.
  intros k Hk. rewrite Ids. unfold ids_from.
  rewrite nth_error_map, nth_error_seq.
  apply Nat.ltb_lt in Hk. rewrite Hk. cbn. do 2 f_equal. lia.
Qed.

(** C5. Every emergence entry of a session, whether the detector or a direct
    call of [log_emergence] made it, has as thought_context the id of the
    last thought logged before it, and 0 when there is none; these entries
    are the ones the logger keeps in [emergence_events]. *)
Theorem emergence_context_is_last_thought (env : state) (cs : list call) :
  exists entries,
    appends env (session env cs) entries /\
    contexts_follow 0 entries /\
    emergence_events (session env cs)
    = filter (entry_is "emergence") entries.
Proof.
  destruct (session_trace env cs) as (entries & A & _ & _ & Ctx & Ev).
  exists entries. repeat split; try assumption; apply A.
Qed.

(** C7. For the empty string and for an absent text the classifier returns
    the record whose five flags are false. *)
Theorem classify_empty_or_absent :
  _analyze_thought_patterns (Some "")
  = mkPatterns false false false false false /\
  _analyze_thought_patterns None
  = mkPatterns false false false false false.
Proof.
  split; reflexivity.
Qed.

Lemma append_text_empty (t : string) : (t ++ "")%string = t.
Proof.
  induction t as [|c t IH]; [reflexivity|]. cbn. now rewrite IH.
Qed.



(* ================================================================== *)
(** ** The analyzer on a readable log *)

Lemma eq_str_thought_not_emergence (ty : json) :
  Json.eq_str ty "thought" = true -> Json.eq_str ty "emergence" = false.
Proof.
  destruct ty; cbn; try discriminate.
  intros H. apply String.eqb_eq in H. now subst.
Qed.

Lemma read_entries_readable (ls : list line) (ths ems : list json) :
  Spec.readable ls = true ->
  read_entries ls ths ems
  = Return (ths ++ Spec.thoughts ls, ems ++ Spec.emergences ls).
Proof.
  revert ths ems. induction ls as [|l ls IH]; intros ths ems R.
  - cbn. now rewrite !app_nil_r.
  - cbn in R. apply andb_true_iff in R as [Rl R].
    destruct l as [e|t]; [|discriminate].
    destruct e as [| | | | |fs]; try discriminate.
    unfold Spec.thoughts, Spec.emergences in *.
    unfold Spec.entry_ok in Rl. cbn [entry_field] in Rl.
    destruct (Json.lookup "event_type" fs) as [ty|] eqn:Ty; [|discriminate].
    assert (E1 : entry_is "thought" (JObj fs) = Json.eq_str ty "thought")
      by (unfold entry_is; cbn [entry_field]; now rewrite Ty).
    assert (E2 : entry_is "emergence" (JObj fs) = Json.eq_str ty "emergence")
      by (unfold entry_is; cbn [entry_field]; now rewrite Ty).
    change (Spec.entries (Json (JObj fs) :: ls))
      with (JObj fs :: Spec.entries ls).
    cbn [read_entries json_loads obind Json.getitem filter].
    rewrite Ty, E1, E2. cbn [obind].
    destruct (Json.eq_str ty "thought") eqn:T.
    + rewrite (eq_str_thought_not_emergence _ T).
      rewrite IH by exact R. now rewrite <- app_assoc.
    + destruct (Json.eq_str ty "emergence") eqn:E;
        rewrite IH by exact R; now rewrite <- ?app_assoc.
Qed.

Lemma thoughts_ok (ls : list line) :
  Spec.readable ls = true ->
  Forall (fun t => Spec.entry_ok t = true /\ entry_is "thought" t = true)
         (Spec.thoughts ls).
Proof.
  intros R. apply Forall_forall. intros t Ht.
  unfold Spec.thoughts in Ht. apply filter_In in Ht as [Ht Th].
  split; [|exact Th].
  unfold Spec.entries in Ht. apply in_flat_map in Ht as (l & Hl & Hin).
  unfold Spec.readable in R. rewrite forallb_forall in R.
  specialize (R l Hl). destruct l as [e|]; [|contradiction].
  destruct Hin as [<-|[]]. exact R.
Qed.

Lemma emergences_ok (ls : list line) :
  Spec.readable ls = true ->
  Forall (fun e => Spec.entry_ok e = true /\ entry_is "emergence" e = true)
         (Spec.emergences ls).
Proof.
  intros R. apply Forall_forall. intros t Ht.
  unfold Spec.emergences in Ht. apply filter_In in Ht as [Ht Th].
  split; [|exact Th].
  unfold Spec.entries in Ht. apply in_flat_map in Ht as (l & Hl & Hin).
  unfold Spec.readable in R. rewrite forallb_forall in R.
  specialize (R l Hl). destruct l as [e|]; [|contradiction].
  destruct Hin as [<-|[]]. exact R.
Qed.

(** On well-shaped thought entries the sum of the source counts the thoughts
    whose flag is there and true. *)
Lemma count_flag_spec (name : string) (ts : list json) :
  In name Spec.counted_flags ->
  Forall (fun t => Spec.entry_ok t = true /\ entry_is "thought" t = true) ts ->
  count_flag name ts = Return (Spec.count name ts).
Proof.
  intros Hn H. induction H as [|t ts [Ok Th] _ IH]; [reflexivity|].
  cbn [count_flag]. rewrite IH. clear IH.
  unfold Spec.count. cbn [filter].
  assert (Step : forall b : bool,
             Return ((if b then 1 else 0)
                     + Z.of_nat (List.length (filter (Spec.flag_true name) ts)))
             = Return (A:=Z) (Z.of_nat (List.length
                 (if b then t :: filter (Spec.flag_true name) ts
                  else filter (Spec.flag_true name) ts)))).
  { intros []; cbn [List.length]; f_equal; lia. }
  destruct t as [| | | | |fs]; try discriminate.
  unfold Spec.entry_ok in Ok. unfold entry_is in Th.
  cbn [entry_field] in Ok, Th.
  destruct (Json.lookup "event_type" fs) as [ty|]; [|discriminate].
  rewrite Th in Ok.
  unfold Spec.flag_true, Spec.flag. cbn [entry_field Json.get obind].
  destruct (Json.lookup "patterns" fs) as [p|].
  - destruct p as [| | | | |ps]; try discriminate.
    rewrite forallb_forall in Ok. specialize (Ok name Hn).
    unfold Spec.flag_ok in Ok. cbn [entry_field Json.get obind] in *.
    destruct (Json.lookup name ps) as [v|]; cbn [obind].
    + destruct v; try discriminate. cbn [Json.truthy]. apply Step.
    + apply (Step false).
  - cbn. apply (Step false).
Qed.

Lemma emergence_type_values_spec (es : list json) :
  Forall (fun e => Spec.entry_ok e = true /\ entry_is "emergence" e = true) es ->
  exists types, emergence_type_values es = Return types.
Proof.
  induction 1 as [|e es [Ok Em] _ [types IH]]; [now exists []|].
  destruct e as [| | | | |fs]; try discriminate.
  unfold Spec.entry_ok in Ok. unfold entry_is in Em.
  cbn [entry_field] in Ok, Em.
  destruct (Json.lookup "event_type" fs) as [ty|] eqn:Ty; [|discriminate].
  destruct (Json.eq_str ty "thought") eqn:T.
  { rewrite (eq_str_thought_not_emergence _ T) in Em. discriminate. }
  rewrite Em in Ok.
  cbn [emergence_type_values Json.getitem].
  destruct (Json.lookup "emergence_type" fs) as [v|]; [|discriminate].
  destruct v; try discriminate.
  cbn. rewrite IH. cbn. eauto.
Qed.

Lemma analyze_readable (ls : list line) :
  Spec.readable ls = true ->
  Spec.thoughts ls <> [] ->
  exists types, analyze_log (Some ls) = Return (report_of ls types).
Proof.
  intros R NE. unfold analyze_log.
  rewrite (read_entries_readable ls [] [] R). cbn [app].
  unfold statistics.
  destruct (Z.of_nat (List.length (Spec.thoughts ls)) =? 0) eqn:Z0.
  { apply Z.eqb_eq in Z0. destruct (Spec.thoughts ls); [now destruct NE|].
    cbn in Z0. lia. }
  pose proof (thoughts_ok ls R) as TO.
  rewrite (count_flag_spec "self_reference" _ ltac:(cbn; tauto) TO).
  rewrite (count_flag_spec "consciousness_indicators" _ ltac:(cbn; tauto) TO).
  rewrite (count_flag_spec "questioning" _ ltac:(cbn; tauto) TO).
  destruct (emergence_type_values_spec _ (emergences_ok ls R)) as [types Ty].
  cbn [obind]. rewrite Ty. cbn [obind].
  exists (Json.distinct [] types). reflexivity.
Qed.

(** ** Missing flags count as false *)

Lemma lookup_app_last (k k' : string) (v : json) (fs : list (string * json)) :
  Json.lookup k (fs ++ [(k', v)])
  = if String.eqb k k' then Some v else Json.lookup k fs.
Proof.
  induction fs as [|[k0 v0] fs IH]; cbn.
  - reflexivity.
  - rewrite IH. destruct (String.eqb k k'); reflexivity.
Qed.

Lemma lookup_with_flag (name f : string) (fs : list (string * json)) :
  Json.lookup name (Spec.with_flag f fs)
  = if String.eqb name f
    then Some (match Json.lookup f fs with
               | Some v => v
               | None => JBool false
               end)
    else Json.lookup name fs.
Proof.
  unfold Spec.with_flag. destruct (Json.lookup f fs) as [v|] eqn:L.
  - destruct (String.eqb_spec name f) as [->|]; [exact L | reflexivity].
  - rewrite lookup_app_last. reflexivity.
Qed.

Lemma lookup_completed_flags (name : string) (ps : list (string * json)) :
  In name Spec.counted_flags ->
  Json.lookup name (fold_right Spec.with_flag ps Spec.counted_flags)
  = Some (match Json.lookup name ps with
          | Some v => v
          | None => JBool false
          end).
Proof.
  intros [<-|[<-|[<-|[]]]]; cbn [fold_right Spec.counted_flags];
    rewrite !lookup_with_flag; reflexivity.
Qed.

Lemma complete_event_type (e : json) :
  Json.getitem (Spec.complete e) "event_type" = Json.getitem e "event_type".
Proof.
  destruct e as [| | | | |fs]; try reflexivity.
  unfold Spec.complete. destruct (entry_is "thought" (JObj fs)); [|reflexivity].
  destruct (Json.lookup "patterns" fs) as [[| | | | |ps]|]; try reflexivity;
    cbn [Json.getitem]; now rewrite lookup_app_last.
Qed.

Lemma complete_other (e : json) :
  entry_is "thought" e = false -> Spec.complete e = e.
Proof.
  destruct e; try reflexivity. unfold Spec.complete. now intros ->.
Qed.

Lemma read_entries_complete (ls : list line) (ths ems : list json) :
  read_entries (map Spec.complete_line ls) (map Spec.complete ths) ems
  = match read_entries ls ths ems with
    | Return (t, e) => Return (map Spec.complete t, e)
    | Raise x => Raise x
    end.
Proof.
  revert ths ems. induction ls as [|l ls IH]; intros ths ems; [reflexivity|].
  destruct l as [e|text]; [|reflexivity].
  cbn [map Spec.complete_line read_entries json_loads obind].
  rewrite complete_event_type.
  destruct (Json.getitem e "event_type") as [ty|x] eqn:G; [|reflexivity].
  cbn [obind].
  assert (Is : entry_is "thought" e = Json.eq_str ty "thought").
  { destruct e as [| | | | |fs]; try discriminate.
    unfold entry_is. cbn [entry_field Json.getitem] in *.
    destruct (Json.lookup "event_type" fs); [|discriminate].
    now inversion G. }
  destruct (Json.eq_str ty "thought") eqn:T.
  - rewrite <- IH, map_app. reflexivity.
  - rewrite (complete_other e Is).
    destruct (Json.eq_str ty "emergence"); apply IH.
Qed.

Lemma count_flag_complete (name : string) (ts : list json) :
  In name Spec.counted_flags ->
  count_flag name (map Spec.complete ts) = count_flag name ts.
Proof.
  intros Hn. induction ts as [|t ts IH]; [reflexivity|].
  cbn [map count_flag]. rewrite IH. clear IH.
  destruct t as [| | | | |fs]; try reflexivity.
  unfold Spec.complete. destruct (entry_is "thought" (JObj fs)); [|reflexivity].
  destruct (Json.lookup "patterns" fs) as [p|] eqn:P.
  - destruct p as [| | | | |ps]; try reflexivity.
    cbn [Json.get]. rewrite lookup_app_last, P, String.eqb_refl.
    cbn [obind Json.get]. rewrite (lookup_completed_flags name ps Hn).
    destruct (Json.lookup name ps); reflexivity.
  - cbn [Json.get]. rewrite lookup_app_last, P, String.eqb_refl.
    cbn [obind Json.get]. rewrite (lookup_completed_flags name [] Hn).
    reflexivity.
Qed.

Lemma statistics_complete (ths ems : list json) :
  statistics (map Spec.complete ths) ems = statistics ths ems.
Proof.
  unfold statistics. rewrite length_map.
  rewrite !count_flag_complete by (cbn; tauto). reflexivity.
Qed.

Lemma analyze_complete (ls : list line) :
  analyze_log (Some (map Spec.complete_line ls)) = analyze_log (Some ls).
Proof.
  unfold analyze_log.
  change (@nil json) with (map Spec.complete []) at 1.
  rewrite (read_entries_complete ls [] []).
  destruct (read_entries ls [] []) as [[t e]|x]; [|reflexivity].
  apply statistics_complete.
Qed.

(** ** Error results *)

Lemma analyze_no_thoughts (ls : list line) :
  Spec.readable ls = true ->
  Spec.thoughts ls = [] ->
  analyze_log (Some ls) = Return (error_result "No thoughts logged yet").
Proof.
  intros R E. unfold analyze_log.
  rewrite (read_entries_readable ls [] [] R), E. reflexivity.
Qed.

Lemma read_entries_malformed (ls : list line) (text : string)
    (ths ems : list json) :
  In (Malformed text) ls -> exists e, read_entries ls ths ems = Raise e.
Proof.
  revert ths ems. induction ls as [|l ls IH]; intros ths ems; [intros []|].
  intros [->|H].
  - cbn. eauto.
  - cbn [read_entries].
    destruct (json_loads l) as [entry|x]; cbn [obind]; [|eauto].
    destruct (Json.getitem entry "event_type") as [ty|x]; cbn [obind]; [|eauto].
    destruct (Json.eq_str ty "thought"); [now apply IH|].
    destruct (Json.eq_str ty "emergence"); now apply IH.
Qed.

Lemma analyze_malformed (ls : list line) (text : string) :
  In (Malformed text) ls ->
  exists e,
    analyze_log (Some ls)
    = Return (error_result ("Failed to analyze log: " ++ exn_str e)%string).
Proof.
  intros H. destruct (read_entries_malformed ls text [] [] H) as [e E].
  exists e. unfold analyze_log. now rewrite E.
Qed.

Lemma error_results_differ (e : exn) :
  error_result ("Failed to analyze log: " ++ exn_str e)%string
  <> error_result "No thoughts logged yet".
Proof.
  unfold error_result. cbn. intros H. inversion H.
Qed.

(* ================================================================== *)
(** ** The claims about the analyzer *)

(** C3, as amended. On a readable log with at least one thought the
    analyzer returns the score
    (self_ref_count*0.4 + consciousness_count*0.3 + questioning_count*0.2
     + emergence_events*0.1) / total_thoughts,
    every operation rounding to binary64; in a session of n thoughts with
    the three flags true and n emergence events this is the rounded value
    of (n*0.4 + n*0.3 + n*0.2 + n*0.1) / n, whose exact value is 1. *)
Theorem consciousness_score_formula (ls : list line) :
  Spec.readable ls = true ->
  Spec.thoughts ls <> [] ->
  score_reported ls.
Proof.
  intros R NE. destruct (analyze_readable ls R NE) as [types E].
  exists (report_of ls types). split; [exact E|]. split; [reflexivity|].
  intros Ha Hb Hc He. split.
  { unfold report_of, entry_field, consciousness_score_of.
    cbv zeta. rewrite Ha, Hb, Hc, He. reflexivity. }
  unfold Spec.exact_score.
  assert (N : ~ (inject_Z (Z.of_nat (List.length (Spec.thoughts ls))) == 0)%Q).
  { destruct (Spec.thoughts ls); [now destruct NE|].
    intros H. unfold Qeq in H. cbn in H. lia. }
  field. exact N.
Qed.

Lemma consciousness_score_formula_witness :
  Spec.readable one_perfect_thought = true /\
  Spec.thoughts one_perfect_thought <> [] /\
  score_reported one_perfect_thought.
Proof.
  split; [reflexivity|]. split; [discriminate|].
  apply (consciousness_score_formula one_perfect_thought);
    [reflexivity | discriminate].
Defined.

(** C3 as stated fails: one thought with the three flags true and one
    emergence event give the score 0.9999999999999999, not 1.0. *)
Lemma perfect_session_score_is_not_one :
  Spec.count "self_reference" (Spec.thoughts one_perfect_thought) = 1 /\
  Spec.count "consciousness_indicators" (Spec.thoughts one_perfect_thought) = 1 /\
  Spec.count "questioning" (Spec.thoughts one_perfect_thought) = 1 /\
  List.length (Spec.thoughts one_perfect_thought) = 1%nat /\
  List.length (Spec.emergences one_perfect_thought) = 1%nat /\
  exists r,
    analyze_log (Some one_perfect_thought) = Return r /\
    entry_field "consciousness_score" r
    = Some (JNum (NFloat 0x1.fffffffffffffp-1%float)) /\
    entry_field "consciousness_score" r <> Some (JNum (NFloat 1%float)).
Proof.
  repeat (split; [reflexivity|]).
  eexists. split; [vm_compute; reflexivity|].
  split; [reflexivity|].
  intros H.
  apply (f_equal (fun o => match o with
                           | Some (JNum (NFloat x)) => PrimFloat.eqb x 1
                           | _ => false
                           end)) in H.
  vm_compute in H. discriminate.
Qed.

(** C8 fails on the code. A log whose lines all parse, with a thought and
    an emergence entry that has no [emergence_type], makes the analyzer
    raise [KeyError]: the lookup is made after the [try] block. *)
Theorem analyze_raises_on_untyped_emergence :
  analyze_log (Some log_with_untyped_emergence)
  = Raise (KeyError "emergence_type") /\
  fst (analyze_consciousness_indicators
         (set_log_file (Some log_with_untyped_emergence) quiet_environment))
  = Raise (KeyError "emergence_type").
Proof.
  split; reflexivity.
Qed.

(** C10. On a readable log with at least one thought, in which thought
    entries may lack the [patterns] field or any of the three counted
    flags, the analyzer succeeds; its rates and its score count a missing
    flag as false, and its result is the one it gives on the log with
    every missing flag written out as false. *)
Theorem missing_flags_count_as_false (ls : list line) :
  Spec.readable ls = true ->
  Spec.thoughts ls <> [] ->
  (exists types, analyze_log (Some ls) = Return (report_of ls types)) /\
  analyze_log (Some (map Spec.complete_line ls)) = analyze_log (Some ls).
Proof.
  intros R NE. split; [now apply analyze_readable | apply analyze_complete].
Qed.

Lemma missing_flags_count_as_false_witness :
  Spec.readable log_with_missing_flags = true /\
  Spec.thoughts log_with_missing_flags <> [] /\
  (exists types,
     analyze_log (Some log_with_missing_flags)
     = Return (report_of log_with_missing_flags types)) /\
  analyze_log (Some (map Spec.complete_line log_with_missing_flags))
  = analyze_log (Some log_with_missing_flags).
Proof.
  split; [reflexivity|]. split; [discriminate|].
  apply (missing_flags_count_as_false log_with_missing_flags);
    [reflexivity | discriminate].
Defined.

(* ================================================================== *)
(** ** The classifier and the match rules *)

Lemma word_char_lower (c : ascii) :
  Text.is_word_char (Text.lower_char c) = Text.is_word_char c.
Proof.
  destruct c as [[] [] [] [] [] [] [] []]; reflexivity.
Qed.












Lemma word_ends_nonempty (w : list ascii) :
  word_ends w = true -> w <> [].
Proof.
  intros H ->. discriminate.
Qed.



Lemma starts_with_spec (needle : list ascii) :
  forall hay,
    Text.starts_with needle hay = true <-> exists post, hay = needle ++ post.
Proof.
  induction needle as [|a needle IH]; intros hay; cbn [Text.starts_with].
  - split; [now exists hay | reflexivity].
  - destruct hay as [|b hay].
    + split; [discriminate | now intros (post & E)].
    + rewrite andb_true_iff, IH, Ascii.eqb_eq. split.
      * intros (-> & post & ->). now exists post.
      * intros (post & E). injection E as -> ->. split; [reflexivity|].
        now exists post.
Qed.

(** The operator [in] on strings finds the occurrences of the needle. *)
Lemma str_in_spec (needle : list ascii) :
  forall hay, Text.str_in needle hay = true <-> Spec.substring needle hay.
Proof.
  unfold Spec.substring.
  induction hay as [|b hay IH]; cbn [Text.str_in];
    rewrite orb_true_iff, starts_with_spec.
  - split.
    + intros [(post & E) | H]; [|discriminate]. now exists [], post.
    + intros (pre & post & E). left. symmetry in E.
      apply app_eq_nil in E as [-> E]. now exists post.
  - rewrite IH. split.
    + intros [(post & E) | (pre & post & E)].
      * now exists [], post.
      * exists (b :: pre), post. now subst.
    + intros ([|b' pre] & post & E).
      * left. now exists post.
      * right. injection E as <- E. now exists pre, post.
Qed.

Lemma str_in_char (c : ascii) (hay : list ascii) :
  Text.str_in [c] hay = true <-> In c hay.
Proof.
  rewrite str_in_spec. unfold Spec.substring. split.
  - intros (pre & post & ->). apply in_elt.
  - intros H. apply in_split in H as (pre & post & ->). now exists pre, post.
Qed.



(* ================================================================== *)
(** ** Sessions, entry by entry *)

Lemma thought_entry_ok (thought : string) (id : Z) (e : json) :
  thought_entry thought id e -> Spec.entry_ok e = true.
Proof.
  intros (T & _ & _ & _ & P).
  unfold entry_is in T. unfold Spec.entry_ok.
  destruct e as [| | | | |fs]; try discriminate.
  destruct (entry_field "event_type" (JObj fs)) as [ty|]; [|discriminate].
  rewrite T, P.
  destruct (_analyze_thought_patterns (Some thought)); reflexivity.
Qed.

Lemma emergence_entry_ok (content : string) (ctx : Z)
    (c : string * float) (e : json) :
  Spec.emergence_entry content ctx c e -> Spec.entry_ok e = true.
Proof.
  intros (ts & up & ->). reflexivity.
Qed.

Lemma emergence_entries_ok (content : string) (ctx : Z)
    (cands : list (string * float)) (evs : list json) :
  Forall2 (Spec.emergence_entry content ctx) cands evs ->
  Forall (fun e => Spec.entry_ok e = true) evs.
Proof.
  induction 1 as [|c e cands evs H _ IH]; constructor; [|exact IH].
  now apply emergence_entry_ok in H.
Qed.

Lemma emergence_entries_no_thought (content : string) (ctx : Z)
    (cands : list (string * float)) (evs : list json) :
  Forall2 (Spec.emergence_entry content ctx) cands evs ->
  filter (entry_is "thought") evs = [].
Proof.
  induction 1 as [|c e cands evs H _ IH]; [reflexivity|].
  apply emergence_entry_fields in H as (T & _).
  cbn [filter]. now rewrite T.
Qed.

(** *** The name of the session never changes *)

Lemma preserves_ret {A B : Type} (f : state -> A) (b : B) :
  preserves f (ret b).
Proof.
  intros st. reflexivity.
Qed.

Lemma preserves_gets {A B : Type} (f : state -> A) (g : state -> B) :
  preserves f (gets g).
Proof.
  intros st. reflexivity.
Qed.

Lemma preserves_bind {A B C : Type} (f : state -> A) (m : M B)
    (k : B -> M C) :
  preserves f m -> (forall b, preserves f (k b)) -> preserves f (bind m k).
Proof.
  intros Hm Hk st. unfold bind. specialize (Hm st).
  destruct (m st) as [[b|e] st']; cbn in *; [|exact Hm].
  now rewrite Hk.
Qed.

Lemma preserves_try {A B : Type} (f : state -> A) (m : M B)
    (h : exn -> M B) :
  preserves f m -> (forall e, preserves f (h e)) ->
  preserves f (try_except m h).
Proof.
  intros Hm Hh st. unfold try_except. specialize (Hm st).
  destruct (m st) as [[b|e] st']; cbn in *; [exact Hm|].
  now rewrite Hh.
Qed.

Lemma preserves_when {A : Type} (f : state -> A) (b : bool) (m : M unit) :
  preserves f m -> preserves f (when b m).
Proof.
  intros Hm. destruct b; [exact Hm | apply preserves_ret].
Qed.

Lemma now_stem : preserves log_file_stem now.
Proof.
  intros st. unfold now. now destruct (wall_clock st).
Qed.

Lemma time_time_stem : preserves log_file_stem time_time.
Proof.
  intros st. unfold time_time. now destruct (timer st).
Qed.

Lemma write_log_entry_stem (entry : json) :
  preserves log_file_stem (_write_log_entry entry).
Proof.
  intros st. unfold _write_log_entry, try_except, append_line, print, modify.
  destruct (io_faults st) as [|[e|] rest]; reflexivity.
Qed.

Lemma log_emergence_stem (event_type content : string) (confidence : float) :
  preserves log_file_stem (log_emergence event_type content confidence).
Proof.
  unfold log_emergence.
  apply preserves_bind; [apply now_stem | intros timestamp].
  apply preserves_bind; [apply preserves_gets | intros ctx].
  apply preserves_bind; [apply preserves_gets | intros start].
  apply preserves_bind.
  { destruct start; [|apply preserves_ret].
    apply preserves_bind; [apply time_time_stem | intros t].
    apply preserves_ret. }
  intros up. apply preserves_bind; [now intros st | intros _].
  apply write_log_entry_stem.
Qed.

Lemma detect_emergence_event_stem (thought : string) (p : patterns) :
  preserves log_file_stem (_detect_emergence_event thought p).
Proof.
  unfold _detect_emergence_event.
  repeat (apply preserves_bind;
          [apply preserves_when, log_emergence_stem | intros _]).
  apply preserves_when, log_emergence_stem.
Qed.

Lemma log_thought_stem (thought : string) (sensor_data : list (string * json))
    (was_output : bool) :
  preserves log_file_stem (log_thought thought sensor_data was_output).
Proof.
  unfold log_thought.
  apply preserves_bind; [now intros st | intros _].
  apply preserves_bind;
    [apply preserves_when; now intros st | intros _].
  apply preserves_bind; [apply now_stem | intros timestamp].
  apply preserves_bind; [apply preserves_gets | intros id].
  apply preserves_bind; [apply write_log_entry_stem | intros _].
  apply preserves_when, detect_emergence_event_stem.
Qed.

Lemma perform_stem (c : call) : preserves log_file_stem (perform c).
Proof.
  destruct c; cbn [perform].
  - apply log_thought_stem.
  - apply log_emergence_stem.
  - unfold __enter__.
    apply preserves_bind; [apply time_time_stem | now intros t st].
Qed.

(** *** One call *)

Lemma perform_traced (c : call) (st : state) :
  exists entries st',
    perform c st = (Return tt, st') /\ traced [c] st st' entries.
Proof.
  pose proof (perform_stem c st) as Stem.
  destruct c as [thought sensor_data was_output|event_type content conf|];
    cbn [perform] in *.
  - destruct (log_thought_spec thought sensor_data was_output st)
      as (e & evs & st' & E & T & O & Th & F & Ev & A).
    rewrite E in Stem. cbn [snd] in Stem.
    exists (e :: evs), st'. split; [exact E|].
    pose proof Th as (IsT & NotE & _ & _ & P).
    unfold traced, logged_patterns, session_patterns, count_thoughts,
      count_outputs.
    cbn [flat_map thought_patterns app filter is_log_thought is_output map].
    rewrite IsT, NotE, (emergences_filter _ _ _ _ F),
      (emergence_entries_no_thought _ _ _ _ F).
    cbn [map]. rewrite P.
    split; [exact A|]. split.
    { constructor; [now apply thought_entry_ok in Th|].
      now apply emergence_entries_ok in F. }
    split; [exact Ev|]. split; [reflexivity|].
    split; [cbn; lia|].
    split; [rewrite O; destruct was_output; cbn; lia | exact Stem].
  - destruct (log_emergence_logs event_type content conf st)
      as (evs & st' & E & F & Ev & T & O & A).
    rewrite E in Stem. cbn [snd] in Stem.
    exists evs, st'. split; [exact E|].
    unfold traced, logged_patterns, session_patterns, count_thoughts,
      count_outputs.
    cbn [flat_map thought_patterns app filter is_log_thought is_output map].
    rewrite (emergences_filter _ _ _ _ F),
      (emergence_entries_no_thought _ _ _ _ F).
    split; [exact A|].
    split; [now apply emergence_entries_ok in F|].
    split; [exact Ev|]. split; [reflexivity|].
    split; [cbn; lia|]. split; [cbn; lia | exact Stem].
  - exists [], (snd (__enter__ st)). split.
    + unfold __enter__, bind, time_time, modify.
      now destruct (timer st).
    + unfold traced. cbn [filter app].
      unfold __enter__, bind, time_time, modify, appends, lines.
      destruct (timer st); cbn; rewrite ?app_nil_r;
        repeat split; try reflexivity; try constructor; lia.
Qed.

(** *** Runs of calls *)

Lemma traced_nil (st : state) : traced [] st st [].
Proof.
  unfold traced. cbn. rewrite app_nil_r.
  split; [apply appends_refl|]. split; [constructor|].
  repeat split; lia.
Qed.

Lemma traced_app (cs1 cs2 : list call) (st1 st2 st3 : state)
    (e1 e2 : list json) :
  traced cs1 st1 st2 e1 -> traced cs2 st2 st3 e2 ->
  traced (cs1 ++ cs2) st1 st3 (e1 ++ e2).
Proof.
  intros (A1 & F1 & Ev1 & P1 & T1 & O1 & S1) (A2 & F2 & Ev2 & P2 & T2 & O2 & S2).
  unfold traced, logged_patterns, session_patterns, count_thoughts,
    count_outputs in *.
  rewrite !filter_app, !map_app, flat_map_app, map_app, !length_app.
  split; [apply (appends_trans _ _ _ _ _ A1 A2)|].
  split; [now apply Forall_app|].
  split; [rewrite Ev2, Ev1; now rewrite app_assoc|].
  split; [now rewrite P1, P2|].
  split; [lia|]. split; [lia | congruence].
Qed.

Lemma run_app (cs1 cs2 : list call) (st : state) :
  run (cs1 ++ cs2) st = run cs2 (run cs1 st).
Proof.
  revert st. induction cs1 as [|c cs1 IH]; intros st; [reflexivity|].
  cbn [app run]. apply IH.
Qed.

Lemma run_traced (cs : list call) (st : state) :
  exists entries, traced cs st (run cs st) entries.
Proof.
  revert st. induction cs as [|c cs IH]; intros st.
  - exists []. apply traced_nil.
  - destruct (perform_traced c st) as (e1 & st' & E & Tr).
    cbn [run]. rewrite E. cbn [snd].
    destruct (IH st') as (e2 & Tr').
    exists (e1 ++ e2). apply (traced_app [c] cs _ _ _ _ _ Tr Tr').
Qed.

Lemma init_traced (env : state) :
  exists st,
    __init__ env = (Return tt, st) /\
    thought_count st = 0 /\ output_count st = 0 /\
    emergence_events st = [] /\
    _session_start_time st = None /\
    log_file_stem st = session_name (next_time env) /\
    exists timestamp,
      appends env st
        [session_start_entry timestamp (session_name (next_time env))].
Proof.
  unfold __init__, _log_session_start, bind, now, gets, modify, next_time.
  destruct (wall_clock env) as [|ts [|ts' wc]] eqn:W;
    with_strategy opaque [_write_log_entry] cbn; rewrite ?W;
    with_strategy opaque [_write_log_entry] cbn;
    match goal with
    | |- context [_write_log_entry ?e ?s] =>
        destruct (write_log_entry_spec e s)
          as (st1 & E & (T & O & Ev & St) & A & _);
        pose proof (write_log_entry_stem e s) as Stem;
        rewrite E in *; cbn [snd] in Stem; exists st1
    end;
    (split; [reflexivity|]);
    cbn in T, O, Ev, St, Stem;
    repeat (split; [assumption|]);
    eexists; unfold appends, lines in *; cbn in *; exact A.
Qed.

(** *** Whole sessions, entry by entry *)

Lemma session_traced (env : state) (cs : list call) :
  exists timestamp entries,
    traced cs (snd (__init__ env)) (session env cs) entries /\
    appends env (session env cs)
      (session_start_entry timestamp (session_name (next_time env))
       :: entries) /\
    emergence_events (session env cs)
    = filter (entry_is "emergence") entries /\
    thought_count (session env cs) = Z.of_nat (count_thoughts cs) /\
    output_count (session env cs) = Z.of_nat (count_outputs cs) /\
    log_file_stem (session env cs) = session_name (next_time env).
Proof.
  unfold session.
  destruct (init_traced env)
    as (st & E & T & O & Ev & _ & Stem & timestamp & A).
  rewrite E. cbn [snd].
  destruct (run_traced cs st) as (entries & Tr).
  exists timestamp, entries. split; [exact Tr|].
  destruct Tr as (A' & _ & Ev' & _ & T' & O' & Stem').
  split; [apply (appends_trans _ _ _ [_] _ A A')|].
  split; [now rewrite Ev', Ev|].
  split; [lia|]. split; [lia | congruence].
Qed.

Lemma entry_ok_typed (e : json) :
  Spec.entry_ok e = true -> entry_is "emergence" e = true ->
  event_typed e = true.
Proof.
  unfold Spec.entry_ok, entry_is, event_typed.
  destruct e as [| | | | |fs]; try discriminate.
  destruct (entry_field "event_type" (JObj fs)) as [ty|]; [|discriminate].
  intros Ok Em. rewrite Em in Ok.
  destruct (Json.eq_str ty "thought") eqn:Th.
  - apply eq_str_thought_not_emergence in Th. congruence.
  - destruct (entry_field "emergence_type" (JObj fs)) as [[]|];
      congruence.
Qed.

Lemma filter_emergence_typed (entries : list json) :
  Forall (fun e => Spec.entry_ok e = true) entries ->
  forallb event_typed (filter (entry_is "emergence") entries) = true.
Proof.
  induction 1 as [|e entries Ok _ IH]; [reflexivity|].
  cbn [filter]. destruct (entry_is "emergence" e) eqn:Em; [|exact IH].
  cbn [forallb]. now rewrite (entry_ok_typed e Ok Em).
Qed.

Lemma emergence_type_values_typed (events : list json) :
  forallb event_typed events = true ->
  emergence_type_values events = Return (map emergence_type_of events).
Proof.
  induction events as [|e events IH]; [reflexivity|].
  cbn [forallb]. intros H. apply andb_true_iff in H as [Ty H].
  cbn [emergence_type_values map]. rewrite (IH H).
  unfold event_typed, emergence_type_of, entry_field in *.
  destruct e as [| | | | |fs]; try discriminate.
  cbn [Json.getitem].
  destruct (Json.lookup "emergence_type" fs) as [[]|]; try discriminate.
  reflexivity.
Qed.

Lemma session_events_typed (env : state) (cs : list call) :
  forallb event_typed (emergence_events (session env cs)) = true.
Proof.
  destruct (session_traced env cs)
    as (ts & entries & (_ & Ok & _) & _ & Ev & _).
  rewrite Ev. now apply filter_emergence_typed.
Qed.

(* ================================================================== *)
(** ** Counters, name and growth of the log *)

Lemma count_outputs_le (cs : list call) :
  (count_outputs cs <= count_thoughts cs)%nat.
Proof.
  unfold count_outputs, count_thoughts.
  induction cs as [|[t sd [|]| |] cs IH]; cbn; lia.
Qed.

(** X1. The counters of the logger count the calls, whatever happens to the
    writes: [thought_count] is the number of [log_thought] calls,
    [output_count] the number of those made with [was_output] set, and so
    [0 <= output_count <= thought_count]. *)
Theorem counters_count_the_calls (env : state) (cs : list call) :
  thought_count (session env cs) = Z.of_nat (count_thoughts cs) /\
  output_count (session env cs) = Z.of_nat (count_outputs cs) /\
  0 <= output_count (session env cs) <= thought_count (session env cs).
Proof.
  destruct (session_traced env cs) as (ts & entries & _ & _ & _ & T & O & _).
  pose proof (count_outputs_le cs). rewrite T, O. lia.
Qed.

(** X2. The name of a session is fixed when the logger is created: it is
    [consciousness_session_] followed by the creation time, no call changes
    it, and it is the [session_id] of the session-start entry, which is the
    first entry the logger hands to the log. *)
Theorem session_name_is_fixed (env : state) (cs : list call) :
  log_file_stem (session env cs) = session_name (next_time env) /\
  exists timestamp entries,
    appends env (session env cs)
      (session_start_entry timestamp (log_file_stem (session env cs))
       :: entries).
Proof.
  destruct (session_traced env cs) as (ts & entries & _ & A & _ & _ & _ & S).
  split; [exact S|]. exists ts, entries. now rewrite S.
Qed.

Lemma write_log_entry_extends (dumps : json -> string) (entry : json)
    (w : Raw.world) :
  exists added,
    Raw.text (snd (Raw._write_log_entry dumps entry w))
    = (Raw.text w ++ added)%string /\
    (Raw.content w <> None ->
     Raw.content (snd (Raw._write_log_entry dumps entry w)) <> None).
Proof.
  unfold Raw._write_log_entry, Raw.append_line, Raw.print.
  destruct (Raw.write_outcomes w) as [|[|e|e|n e] ws].
  - exists (Raw.line_of dumps entry). split; [reflexivity | discriminate].
  - exists (Raw.line_of dumps entry). split; [reflexivity | discriminate].
  - exists "". rewrite append_text_empty. cbn.
    now destruct (Raw.print_outcomes w) as [|[x|] ps].
  - exists "". rewrite append_text_empty. cbn.
    destruct (Raw.print_outcomes w) as [|[x|] ps];
      (split; [reflexivity | discriminate]).
  - exists (substring 0 n (Raw.line_of dumps entry)). cbn.
    destruct (Raw.print_outcomes w) as [|[x|] ps];
      (split; [reflexivity | discriminate]).
Qed.

Lemma append_text_assoc (a b c : string) :
  ((a ++ b) ++ c)%string = (a ++ b ++ c)%string.
Proof.
  induction a as [|x a IH]; [reflexivity|]. cbn. now rewrite IH.
Qed.

(** X3. The log only grows, whatever happens to the writes. Over any
    sequence of calls of [_write_log_entry], with writes that succeed, that
    cannot open the file, that fail to serialise or that stop part-way, and
    with a [print] that succeeds or raises, the content that the file had
    at the beginning is the beginning of the content it has at the end, and
    a file that exists is not removed. *)
Theorem log_only_grows (dumps : json -> string) (entries : list json)
    (w : Raw.world) :
  exists added,
    Raw.text (Raw.write_each dumps entries w) = (Raw.text w ++ added)%string /\
    (Raw.content w <> None ->
     Raw.content (Raw.write_each dumps entries w) <> None).
Proof.
  revert w. induction entries as [|entry entries IH]; intros w.
  - exists "". rewrite append_text_empty. now split.
  - cbn [Raw.write_each].
    destruct (write_log_entry_extends dumps entry w) as (a1 & E1 & N1).
    destruct (IH (snd (Raw._write_log_entry dumps entry w)))
      as (a2 & E2 & N2).
    exists (a1 ++ a2)%string. split.
    + now rewrite E2, E1, append_text_assoc.
    + intros N. apply N2, N1, N.
Qed.

(* ================================================================== *)
(** ** The analyzer on the log of a session *)

Lemma readable_app (a b : list line) :
  Spec.readable (a ++ b) = Spec.readable a && Spec.readable b.
Proof.
  apply forallb_app.
Qed.

Lemma readable_written (faults : list (option exn)) (entries : list json) :
  Forall (fun e => Spec.entry_ok e = true) entries ->
  Spec.readable (written faults entries) = true.
Proof.
  intros F. revert faults.
  induction F as [|e entries Ok _ IH]; intros faults; [reflexivity|].
  destruct faults as [|[x|] faults]; cbn [written]; try apply IH;
    cbn; now rewrite Ok, IH.
Qed.

Lemma session_readable (env : state) (cs : list call) :
  Spec.readable (lines env) = true ->
  Spec.readable (lines (session env cs)) = true.
Proof.
  intros R.
  destruct (session_traced env cs)
    as (ts & entries & (_ & Ok & _) & (A & _) & _).
  rewrite A, readable_app, R. apply readable_written.
  constructor; [reflexivity | exact Ok].
Qed.

Lemma analyze_readable_types (ls : list line) :
  Spec.readable ls = true ->
  Spec.thoughts ls <> [] ->
  analyze_log (Some ls)
  = Return (report_of ls (distinct_types (Spec.emergences ls))).
Proof.
  intros R NE. unfold analyze_log.
  rewrite (read_entries_readable ls [] [] R). cbn [app].
  unfold statistics.
  destruct (Z.of_nat (List.length (Spec.thoughts ls)) =? 0) eqn:Z0.
  { apply Z.eqb_eq in Z0. destruct (Spec.thoughts ls); [now destruct NE|].
    cbn in Z0. lia. }
  pose proof (thoughts_ok ls R) as TO.
  rewrite (count_flag_spec "self_reference" _ ltac:(cbn; tauto) TO).
  rewrite (count_flag_spec "consciousness_indicators" _ ltac:(cbn; tauto) TO).
  rewrite (count_flag_spec "questioning" _ ltac:(cbn; tauto) TO).
  cbn [obind]. rewrite emergence_type_values_typed; [reflexivity|].
  pose proof (emergences_ok ls R) as EO.
  apply forallb_forall. intros e I.
  rewrite Forall_forall in EO. destruct (EO e I) as [Ok Em].
  now apply entry_ok_typed.
Qed.

Lemma faultless_file (env : state) (cs : list call) :
  io_faults env = [] ->
  exists ls,
    log_file (session env cs) = Some ls /\
    io_faults (session env cs) = [].
Proof.
  intros F.
  destruct (session_traced env cs) as (ts & entries & _ & (A & A') & _).
  rewrite F in A, A'. rewrite written_no_fault in A.
  rewrite skipn_nil in A'. unfold lines in A.
  destruct (log_file (session env cs)) as [ls|].
  - now exists ls.
  - destruct (log_file env); cbn in A;
      [apply (f_equal (@List.length line)) in A; rewrite length_app in A;
       cbn in A; lia | discriminate].
Qed.

(** X4. When no write fails, the analyzer never fails on a log that the
    logger has written: if the file was absent or readable when the logger
    was created then, whatever the calls, every line of the file is an
    entry the analyzer reads, and the analysis returns the statistics or
    "No thoughts logged yet"; it does not raise and it does not report a
    failure to analyze. *)
Theorem own_log_is_analyzable (env : state) (cs : list call) :
  io_faults env = [] ->
  Spec.readable (lines env) = true ->
  Spec.readable (lines (session env cs)) = true /\
  exists r,
    analyze_consciousness_indicators (session env cs)
    = (Return r, session env cs) /\
    (r = error_result "No thoughts logged yet" \/
     exists types, r = report_of (lines (session env cs)) types).
Proof.
  intros F R. pose proof (session_readable env cs R) as R'.
  split; [exact R'|].
  destruct (faultless_file env cs F) as (ls & L & _).
  unfold analyze_consciousness_indicators.
  unfold lines in R' |- *. rewrite L in *.
  destruct (Spec.thoughts ls) as [|t ts] eqn:T.
  - exists (error_result "No thoughts logged yet").
    rewrite (analyze_no_thoughts ls R' T). auto.
  - destruct (analyze_readable ls R') as [types E]; [now rewrite T|].
    exists (report_of ls types). rewrite E. split; [reflexivity|].
    right. now exists types.
Qed.

Lemma own_log_is_analyzable_witness :
  io_faults quiet_environment = [] /\
  Spec.readable (lines quiet_environment) = true /\
  Spec.readable
    (lines (session quiet_environment
              [LogThought "I feel aware now?" [] true])) = true.
Proof.
  split; [reflexivity|]. split; [reflexivity|].
  apply (own_log_is_analyzable quiet_environment
           [LogThought "I feel aware now?" [] true]); reflexivity.
Defined.

(** *** A session without write faults *)

Lemma entries_map_Json (es : list json) : Spec.entries (map Json es) = es.
Proof.
  unfold Spec.entries. induction es as [|e es IH]; [reflexivity|].
  cbn. now rewrite IH.
Qed.

Lemma length_session_patterns (cs : list call) :
  List.length (session_patterns cs) = count_thoughts cs.
Proof.
  unfold session_patterns, count_thoughts.
  induction cs as [|[t sd w| |] cs IH]; cbn; lia.
Qed.

Lemma length_filter_map {A B : Type} (f : B -> bool) (h : A -> B)
    (l : list A) :
  List.length (filter f (map h l))
  = List.length (filter (fun a => f (h a)) l).
Proof.
  induction l as [|a l IH]; [reflexivity|].
  cbn. destruct (f (h a)); cbn; now rewrite IH.
Qed.

Lemma count_logged_patterns (name : string) (f : patterns -> bool)
    (ts : list json) (ps : list patterns) :
  (forall p, flag_of_field name (Some (patterns_json p)) = f p) ->
  map (entry_field "patterns") ts = map (fun p => Some (patterns_json p)) ps ->
  Spec.count name ts = Z.of_nat (List.length (filter f ps)).
Proof.
  intros Hf E. unfold Spec.count. f_equal.
  transitivity
    (List.length (filter (flag_of_field name)
                    (map (entry_field "patterns") ts))).
  - rewrite length_filter_map. f_equal. apply filter_ext. intros t.
    unfold Spec.flag_true, Spec.flag, flag_of_field.
    now destruct (entry_field "patterns" t).
  - rewrite E, length_filter_map. f_equal. apply filter_ext. exact Hf.
Qed.

Lemma readable_map_Json (es : list json) :
  Forall (fun e => Spec.entry_ok e = true) es ->
  Spec.readable (map Json es) = true.
Proof.
  rewrite <- written_no_fault. apply readable_written.
Qed.

Lemma faultless_lines (env : state) (cs : list call) :
  faultless env ->
  exists timestamp entries,
    log_file (session env cs)
    = Some (map Json (session_start_entry timestamp
                        (session_name (next_time env)) :: entries)) /\
    traced cs (snd (__init__ env)) (session env cs) entries /\
    emergence_events (session env cs)
    = filter (entry_is "emergence") entries.
Proof.
  intros [F N].
  destruct (session_traced env cs) as (ts & entries & Tr & (A & _) & Ev & _).
  exists ts, entries. split; [|split; [exact Tr | exact Ev]].
  unfold lines in A. rewrite F, N, written_no_fault in A.
  destruct (log_file (session env cs)); [now rewrite A | discriminate].
Qed.

(** X5. Round trip of a session without write faults on a fresh file: if at
    least one thought was logged, the analyzer reads back what the logger
    counted. [total_thoughts] is the number of [log_thought] calls, the
    three rates count the thoughts that the classifier flagged,
    [emergence_events] and [emergence_types] are the number and the types
    of the events kept in memory, and the score is the weighted sum of
    these counts over the number of thoughts. *)
Theorem analysis_of_faultless_session (env : state) (cs : list call) :
  faultless env ->
  (0 < count_thoughts cs)%nat ->
  analyze_consciousness_indicators (session env cs)
  = (Return (session_report cs (emergence_events (session env cs))),
     session env cs).
Proof.
  intros F Pos.
  destruct (faultless_lines env cs F)
    as (ts & entries & L & (_ & Ok & _ & P & _) & Ev).
  unfold analyze_consciousness_indicators. rewrite L. f_equal.
  set (start := session_start_entry ts (session_name (next_time env))) in *.
  set (ls := map Json (start :: entries)).
  assert (Th : Spec.thoughts ls = filter (entry_is "thought") entries).
  { unfold Spec.thoughts, ls. now rewrite entries_map_Json. }
  assert (Em : Spec.emergences ls = emergence_events (session env cs)).
  { unfold Spec.emergences, ls. now rewrite entries_map_Json, Ev. }
  assert (Len : List.length (Spec.thoughts ls) = count_thoughts cs).
  { rewrite Th, <- length_session_patterns.
    unfold logged_patterns in P.
    rewrite <- (length_map (entry_field "patterns")), P.
    apply length_map. }
  assert (R : Spec.readable ls = true).
  { apply readable_map_Json. constructor; [reflexivity | exact Ok]. }
  rewrite (analyze_readable_types ls R).
  2:{ intros E. rewrite E in Len. cbn in Len. lia. }
  unfold report_of, session_report, count_patterns. cbv zeta.
  rewrite Em, Len.
  unfold logged_patterns in P. rewrite <- Th in P.
  rewrite (count_logged_patterns "self_reference" self_reference _ _
             ltac:(intros []; reflexivity) P).
  rewrite (count_logged_patterns "consciousness_indicators"
             consciousness_indicators _ _ ltac:(intros []; reflexivity) P).
  rewrite (count_logged_patterns "questioning" questioning _ _
             ltac:(intros []; reflexivity) P).
  reflexivity.
Qed.

Lemma analysis_of_faultless_session_witness :
  faultless quiet_environment /\
  (0 < count_thoughts [LogThought "I feel aware now?" [] true])%nat /\
  analyze_consciousness_indicators
    (session quiet_environment [LogThought "I feel aware now?" [] true])
  = (Return (session_report [LogThought "I feel aware now?" [] true]
               (emergence_events
                  (session quiet_environment
                     [LogThought "I feel aware now?" [] true]))),
     session quiet_environment [LogThought "I feel aware now?" [] true]).
Proof.
  split; [split; reflexivity|]. split; [cbn; lia|].
  apply (analysis_of_faultless_session quiet_environment
           [LogThought "I feel aware now?" [] true]);
    [split; reflexivity | cbn; lia].
Defined.

(* ================================================================== *)
(** ** The summary of a session *)

Lemma get_session_summary_typed (in_log_dir : string -> string) (st : state) :
  forallb event_typed (emergence_events st) = true ->
  get_session_summary in_log_dir st
  = (Return (summary_of in_log_dir st),
     set_timer (skipn 2 (timer st)) st).
Proof.
  intros Ty.
  unfold get_session_summary, summary_of, session_duration_minutes,
    distinct_types, bind, gets, lift, time_time, ret.
  rewrite (emergence_type_values_typed _ Ty).
  destruct st as [stem tc oc evs start file out faults wc tm].
  destruct tm as [|t [|t' tm]]; destruct start; reflexivity.
Qed.

(** X6. In every session [get_session_summary] returns; it never raises the
    [KeyError] that its lookup of [emergence_type] could raise, because
    every event kept in memory has a type. The summary holds the name of
    the session file, the two counters, the number of events kept in memory
    and their distinct types, and the duration computed from two readings
    of the timer; the call changes nothing but the timer. *)
Theorem summary_of_a_session (in_log_dir : string -> string)
    (env : state) (cs : list call) :
  get_session_summary in_log_dir (session env cs)
  = (Return (summary_of in_log_dir (session env cs)),
     set_timer (skipn 2 (timer (session env cs))) (session env cs)).
Proof.
  apply get_session_summary_typed, session_events_typed.
Qed.

(* ================================================================== *)
(** ** Entries the analyzer passes over, and the end of a session *)

Lemma read_entries_app (ls1 ls2 : list line) :
  forall ths ems,
    read_entries (ls1 ++ ls2) ths ems
    = match read_entries ls1 ths ems with
      | Return (ths', ems') => read_entries ls2 ths' ems'
      | Raise x => Raise x
      end.
Proof.
  induction ls1 as [|l ls1 IH]; intros ths ems; [reflexivity|].
  cbn [app read_entries].
  destruct (json_loads l) as [entry|x]; [|reflexivity]. cbn [obind].
  destruct (Json.getitem entry "event_type") as [ty|x]; [|reflexivity].
  cbn [obind].
  destruct (Json.eq_str ty "thought"); [apply IH|].
  destruct (Json.eq_str ty "emergence"); apply IH.
Qed.

Lemma analyze_skips (ls1 ls2 : list line) (e ty : json) :
  entry_field "event_type" e = Some ty ->
  Json.eq_str ty "thought" = false ->
  Json.eq_str ty "emergence" = false ->
  analyze_log (Some (ls1 ++ Json e :: ls2)) = analyze_log (Some (ls1 ++ ls2)).
Proof.
  intros F NT NE. unfold analyze_log.
  rewrite !read_entries_app.
  destruct (read_entries ls1 [] []) as [[ths ems]|x]; [|reflexivity].
  cbn [read_entries json_loads obind].
  destruct e as [| | | | |fs]; try discriminate.
  cbn in F. cbn [Json.getitem]. rewrite F. cbn [obind].
  now rewrite NT, NE.
Qed.

(** X7. The analyzer passes over every entry whose [event_type] is neither
    [thought] nor [emergence], wherever it stands in the log: the result is
    the one for the log without that line. *)
Theorem analysis_ignores_other_entries (ls1 ls2 : list line) (e ty : json) :
  entry_field "event_type" e = Some ty ->
  Json.eq_str ty "thought" = false ->
  Json.eq_str ty "emergence" = false ->
  analyze_log (Some (ls1 ++ Json e :: ls2)) = analyze_log (Some (ls1 ++ ls2)).
Proof.
  apply analyze_skips.
Qed.

Lemma analysis_ignores_other_entries_witness :
  analyze_log
    (Some (one_perfect_thought
           ++ Json (session_start_entry "" "") :: one_perfect_thought))
  = analyze_log (Some (one_perfect_thought ++ one_perfect_thought)).
Proof.
  apply (analysis_ignores_other_entries one_perfect_thought
           one_perfect_thought (session_start_entry "" "")
           (JStr "session_start")); reflexivity.
Defined.

Lemma exit_spec (in_log_dir : string -> string) (st : state) (ls : list line) :
  forallb event_typed (emergence_events st) = true ->
  io_faults st = [] ->
  log_file st = Some ls ->
  exists st',
    __exit__ in_log_dir st = (Return tt, st') /\
    thought_count st' = thought_count st /\
    output_count st' = output_count st /\
    emergence_events st' = emergence_events st /\
    log_file st'
    = Some (ls ++ [Json (session_end_entry (next_time st)
                           (summary_of in_log_dir st))]) /\
    analyze_log (log_file st') = analyze_log (log_file st).
Proof.
  intros Ty F L. unfold __exit__, bind, now, next_time.
  assert (Go : forall timestamp s0,
             emergence_events s0 = emergence_events st ->
             summary_of in_log_dir s0 = summary_of in_log_dir st ->
             thought_count s0 = thought_count st ->
             output_count s0 = output_count st ->
             log_file s0 = log_file st ->
             io_faults s0 = [] ->
             exists st',
               (let (o, s1) := get_session_summary in_log_dir s0 in
                match o with
                | Return a =>
                    _write_log_entry
                      (JObj [("timestamp", JStr timestamp);
                             ("event_type", JStr "session_end");
                             ("final_summary", a)]) s1
                | Raise e => (Raise e, s1)
                end) = (Return tt, st') /\
               thought_count st' = thought_count st /\
               output_count st' = output_count st /\
               emergence_events st' = emergence_events st /\
               log_file st'
               = Some (ls ++ [Json (session_end_entry timestamp
                                      (summary_of in_log_dir st))]) /\
               analyze_log (log_file st') = analyze_log (log_file st)).
  { intros timestamp s0 Ev Su T O L0 F0.
    rewrite get_session_summary_typed by now rewrite Ev.
    rewrite Su.
    match goal with
    | |- context [_write_log_entry ?e ?s] =>
        destruct (write_log_entry_spec e s)
          as (st' & E & (T' & O' & Ev' & _) & _ & W)
    end.
    exists st'. rewrite E. cbn in T', O', Ev', W.
    rewrite F0 in W. destruct W as [W _].
    unfold lines in W. cbn in W. rewrite L0, L in W.
    fold (session_end_entry timestamp (summary_of in_log_dir st)) in W.
    assert (L' : log_file st'
                 = Some (ls ++ [Json (session_end_entry timestamp
                                        (summary_of in_log_dir st))])).
    { destruct (log_file st') as [ls'|]; [now rewrite W|].
      apply (f_equal (@List.length line)) in W. rewrite length_app in W.
      cbn in W. lia. }
    split; [reflexivity|]. split; [congruence|]. split; [congruence|].
    split; [congruence|]. split; [exact L'|].
    rewrite L', L.
    rewrite (analyze_skips ls [] _ (JStr "session_end"));
      [now rewrite app_nil_r | reflexivity | reflexivity | reflexivity]. }
  destruct (wall_clock st) as [|ts wc].
  - apply Go; try reflexivity. exact F.
  - apply Go; try reflexivity. exact F.
Qed.

(** X8. The end of a session in which no write fails: [__exit__] returns,
    the counters and the events kept in memory stay as they are, and the
    file gets one more line, its last, the [session_end] entry whose
    [final_summary] is the summary of the session; the analysis of the file
    is the same before and after, the new line being one the analyzer
    passes over. The [emergence_types] of the summary are listed as
    [Json.distinct] lists them, each at its first occurrence. *)
Theorem exit_ends_the_session (in_log_dir : string -> string)
    (env : state) (cs : list call) :
  io_faults env = [] ->
  let st := session env cs in
  exists st',
    __exit__ in_log_dir st = (Return tt, st') /\
    thought_count st' = thought_count st /\
    output_count st' = output_count st /\
    emergence_events st' = emergence_events st /\
    log_file st'
    = Some (lines st ++ [Json (session_end_entry (next_time st)
                                 (summary_of in_log_dir st))]) /\
    analyze_log (log_file st') = analyze_log (log_file st).
Proof.
  intros F st. destruct (faultless_file env cs F) as (ls & L & F').
  fold st in L, F'.
  replace (lines st) with ls by (unfold lines; now rewrite L).
  apply exit_spec; [apply session_events_typed | exact F' | exact L].
Qed.

Lemma exit_ends_the_session_witness :
  exists st',
    __exit__ (fun name => name)
      (session quiet_environment [LogThought "I feel aware now?" [] true])
    = (Return tt, st') /\
    List.length (lines st') = 7%nat.
Proof.
  destruct (exit_ends_the_session (fun name => name) quiet_environment
              [LogThought "I feel aware now?" [] true] eq_refl)
    as (st' & E & _ & _ & _ & L & _).
  exists st'. split; [exact E|]. unfold lines at 1. rewrite L.
  rewrite length_app. reflexivity.
Defined.

(* ================================================================== *)
(** ** Thought ids in the file *)

Lemma increasing_from_weaken (lo lo' : Z) (ids : list Z) :
  lo' <= lo -> increasing_from lo ids -> increasing_from lo' ids.
Proof.
  destruct ids as [|i ids]; [trivial|]. cbn. intros L [H R].
  split; [lia | exact R].
Qed.

Lemma written_ids (entries : list json) :
  forall faults n k,
    thought_ids entries = ids_from n k ->
    exists ids,
      thought_ids (Spec.entries (written faults entries)) = map Some ids /\
      increasing_from n ids /\
      Forall (fun i => i <= n + Z.of_nat k) ids.
Proof.
  induction entries as [|e es IH]; intros faults n k E.
  - exists []. repeat split; constructor.
  - assert (Step : exists n' k',
               thought_ids es = ids_from n' k' /\
               n <= n' /\ n' + Z.of_nat k' = n + Z.of_nat k /\
               (entry_is "thought" e = true ->
                entry_int "thought_id" e = Some n' /\ n < n')).
    { unfold thought_ids in *. cbn [filter] in E.
      destruct (entry_is "thought" e).
      - destruct k as [|k]; [discriminate|].
        rewrite ids_from_step in E. cbn [map] in E. injection E as E1 E2.
        exists (n + 1), k. repeat split; try assumption; lia.
      - exists n, k. repeat split; try assumption; try lia; discriminate. }
    destruct Step as (n' & k' & E' & Le & Sum & Id).
    assert (Drop : forall fs,
               exists ids,
                 thought_ids (Spec.entries (written fs es)) = map Some ids /\
                 increasing_from n ids /\
                 Forall (fun i => i <= n + Z.of_nat k) ids).
    { intros fs. destruct (IH fs n' k' E') as (ids & H1 & H2 & H3).
      exists ids. split; [exact H1|].
      split; [now apply increasing_from_weaken with n'|].
      now rewrite <- Sum. }
    assert (Keep : forall fs,
               exists ids,
                 thought_ids (Spec.entries (Json e :: written fs es))
                 = map Some ids /\
                 increasing_from n ids /\
                 Forall (fun i => i <= n + Z.of_nat k) ids).
    { intros fs. destruct (IH fs n' k' E') as (ids & H1 & H2 & H3).
      change (Spec.entries (Json e :: written fs es))
        with (e :: Spec.entries (written fs es)).
      unfold thought_ids in *. cbn [filter].
      destruct (entry_is "thought" e).
      - destruct (Id eq_refl) as [I Lt].
        exists (n' :: ids). cbn [map]. rewrite I, H1.
        split; [reflexivity|]. split; [now split|].
        constructor; [lia | now rewrite <- Sum].
      - exists ids. split; [exact H1|].
        split; [now apply increasing_from_weaken with n'|].
        now rewrite <- Sum. }
    destruct faults as [|[x|] fs]; cbn [written];
      [apply Keep | apply Drop | apply Keep].
Qed.

(** X9. The thought ids that reach the file increase strictly: whatever writes
    fail, the lines a session adds to the file hold thought entries whose
    ids are a strictly increasing sequence between 1 and the thought
    counter of the logger. A failed write leaves a gap in the ids; it never
    makes an id appear twice or out of order. *)
Theorem thought_ids_in_file_increase (env : state) (cs : list call) :
  exists new ids,
    lines (session env cs) = lines env ++ new /\
    thought_ids (Spec.entries new) = map Some ids /\
    increasing_from 0 ids /\
    Forall (fun i => i <= thought_count (session env cs)) ids.
Proof.
  destruct (session_trace env cs) as (entries & (A & _) & T & Ids & _).
  destruct (written_ids entries (io_faults env) 0 _ Ids)
    as (ids & H1 & H2 & H3).
  exists (written (io_faults env) entries), ids.
  repeat split; try assumption. now rewrite T.
Qed.

(* ================================================================== *)
(** ** Confidence of the detector *)

Lemma candidates_confident (p : patterns) :
  (List.length (Spec.candidates p) <= 4)%nat /\
  forallb (fun c => confident (snd c)) (Spec.candidates p) = true.
Proof.
  destruct p as [[] [] [] [] []]; split;
    try (vm_compute; reflexivity); vm_compute; lia.
Qed.

Lemma emergence_entries_confident (content : string) (ctx : Z)
    (cands : list (string * float)) (evs : list json) :
  Forall2 (Spec.emergence_entry content ctx) cands evs ->
  forallb (fun c => confident (snd c)) cands = true ->
  Forall (fun ev => exists c,
            entry_field "confidence" ev = Some (JNum (NFloat c)) /\
            confident c = true) evs.
Proof.
  induction 1 as [|c e cands evs H _ IH]; intros C; constructor.
  - apply emergence_entry_fields in H as (_ & _ & _ & _ & Cf).
    exists (snd c). split; [exact Cf|].
    cbn in C. now apply andb_true_iff in C as [C _].
  - apply IH. cbn in C. now apply andb_true_iff in C as [_ C].
Qed.

(** X10. One thought makes the detector log at most four emergence events,
    each with a confidence between 0.6 and 1.0: whatever the call of
    [log_thought] returns, the events it adds to the list kept in memory
    are at most four entries whose [confidence] is a float [c] with
    [0.6 <= c <= 1.0]. *)
Theorem detector_confidence_is_bounded (thought : string)
    (sensor_data : list (string * json)) (was_output : bool) (st : state) :
  exists evs,
    emergence_events (snd (log_thought thought sensor_data was_output st))
    = emergence_events st ++ evs /\
    (List.length evs <= 4)%nat /\
    Forall (fun ev => exists c,
              entry_field "confidence" ev = Some (JNum (NFloat c)) /\
              confident c = true) evs.
Proof.
  destruct (log_thought_spec thought sensor_data was_output st)
    as (e & evs & st' & E & _ & _ & _ & F & Ev & _).
  cbv zeta in F. exists evs. rewrite E. cbn [snd].
  split; [exact Ev|].
  destruct (candidates_confident (_analyze_thought_patterns (Some thought)))
    as [Len Cf].
  destruct (Spec.pre_check _).
  - split; [now rewrite <- (Forall2_length F)|].
    now apply (emergence_entries_confident _ _ _ _ F).
  - inversion F; subst. split; [cbn; lia | constructor].
Qed.

(* ================================================================== *)
(** ** Export *)

Lemma session_analysis_returns (env : state) (cs : list call) :
  Spec.readable (lines env) = true ->
  exists r, analyze_log (log_file (session env cs)) = Return r.
Proof.
  intros R. pose proof (session_readable env cs R) as R'.
  unfold lines in R'.
  destruct (log_file (session env cs)) as [ls|]; [|now eexists].
  destruct (Spec.thoughts ls) as [|t ts] eqn:T.
  - eexists. now apply analyze_no_thoughts.
  - eexists. apply analyze_readable_types; [exact R' | now rewrite T].
Qed.

(** X11. Export at any point of a session in which no write has failed and
    whose file the logger alone has written. The summary and the analysis
    are computed first and neither raises; an analysis that ends in an
    error result is exported as that result. Then the format decides: if
    its lower-case form is [json] the document made of the summary, the
    analysis and a timestamp is written to the file [<session>_summary.json]
    and the path is returned; if opening the file fails the exception is
    raised and the file is as it was; if the writing fails after the file
    was opened the exception is raised and the file is left incomplete.
    Any other format raises [ValueError] with the format as it was given,
    and writes nothing. The summary and the analysis of the document are
    the values that [get_session_summary] and
    [analyze_consciousness_indicators] return in that state, so that their
    [emergence_types] come in the order of [Json.distinct]. *)
Theorem export_checks_the_format (in_log_dir : string -> string)
    (env : state) (cs : list call) (format : string)
    (old : summary_content) (attempt : export_outcome) :
  io_faults env = [] ->
  Spec.readable (lines env) = true ->
  let st := session env cs in
  exists summary r timestamp st',
    fst (get_session_summary in_log_dir st) = Return summary /\
    fst (analyze_consciousness_indicators st) = Return r /\
    export_data in_log_dir st
    = (Return (JObj [ ("session_summary", summary);
                      ("consciousness_analysis", r);
                      ("export_timestamp", JStr timestamp) ]), st') /\
    export_session_data in_log_dir format (mkFiles st old attempt)
    = if String.eqb (lower_str format) "json" then
        match attempt with
        | Exported =>
            (inl (in_log_dir (log_file_stem st ++ "_summary.json")%string),
             mkFiles st'
               (Holds (JObj [ ("session_summary", summary);
                              ("consciousness_analysis", r);
                              ("export_timestamp", JStr timestamp) ]))
               Exported)
        | ExportOpenFails e => (inr (Propagated e), mkFiles st' old Exported)
        | ExportDumpFails e =>
            (inr (Propagated e), mkFiles st' Incomplete Exported)
        end
      else
        (inr (ValueError ("Unsupported export format: " ++ format)%string),
         mkFiles st' old attempt).
Proof.
  intros _ R st.
  destruct (session_analysis_returns env cs R) as [r An]. fold st in An.
  pose proof (session_events_typed env cs) as Ty. fold st in Ty.
  assert (Ex : exists timestamp st',
             export_data in_log_dir st
             = (Return (JObj [ ("session_summary", summary_of in_log_dir st);
                               ("consciousness_analysis", r);
                               ("export_timestamp", JStr timestamp) ]), st')
             /\ log_file_stem st' = log_file_stem st).
  { unfold export_data, bind. rewrite (get_session_summary_typed _ _ Ty).
    unfold analyze_consciousness_indicators. cbn [log_file set_timer].
    rewrite An. unfold now, ret. cbn [wall_clock set_timer].
    destruct (wall_clock st) as [|ts wc]; eexists _, _;
      (split; [reflexivity|]); reflexivity. }
  destruct Ex as (timestamp & st' & Ex & S).
  exists (summary_of in_log_dir st), r, timestamp, st'.
  split; [now rewrite (get_session_summary_typed _ _ Ty)|].
  split; [unfold analyze_consciousness_indicators; cbn [fst]; exact An|].
  split; [exact Ex|].
  unfold export_session_data. cbn [logger summary_file export_attempt].
  rewrite Ex, S. reflexivity.
Qed.

Lemma export_checks_the_format_witness :
  exists st',
    export_session_data (fun name => name) "XML"
      (mkFiles (session quiet_environment []) Missing Exported)
    = (inr (ValueError "Unsupported export format: XML"),
       mkFiles st' Missing Exported).
Proof.
  destruct (export_checks_the_format (fun name => name) quiet_environment []
              "XML" Missing Exported eq_refl eq_refl)
    as (summary & r & timestamp & st' & _ & _ & _ & E).
  exists st'. exact E.
Defined.

(* ================================================================== *)
(** ** Letter case *)

Lemma lower_char_idem (c : ascii) :
  Text.lower_char (Text.lower_char c) = Text.lower_char c.
Proof.
  destruct c as [[] [] [] [] [] [] [] []]; reflexivity.
Qed.

Lemma lower_idem (s : list ascii) : Text.lower (Text.lower s) = Text.lower s.
Proof.
  unfold Text.lower. rewrite map_map. apply map_ext, lower_char_idem.
Qed.

Lemma lower_char_question (c : ascii) :
  Text.lower_char c = "?"%char -> c = "?"%char.
Proof.
  destruct c as [[] [] [] [] [] [] [] []]; cbn; intros H;
    try reflexivity; discriminate.
Qed.

Lemma word_opt_lower (o : option ascii) :
  Re.word_opt (option_map Text.lower_char o) = Re.word_opt o.
Proof.
  destruct o; [apply word_char_lower | reflexivity].
Qed.

Lemma match_here_lower (r : list Re.atom) :
  forall prev s,
    Re.match_here true r (option_map Text.lower_char prev) (Text.lower s)
    = Re.match_here true r prev s.
Proof.
  induction r as [|[|c] r IH]; intros prev s; cbn [Re.match_here].
  - reflexivity.
  - rewrite IH. f_equal. unfold Re.at_boundary. rewrite word_opt_lower.
    f_equal. destruct s; [reflexivity | apply word_char_lower].
  - destruct s as [|d s]; [reflexivity|]. cbn [Text.lower map].
    change (Some (Text.lower_char d))
      with (option_map Text.lower_char (Some d)).
    fold (Text.lower s). rewrite IH. f_equal.
    unfold Re.chr_eq. now rewrite lower_char_idem.
Qed.

Lemma search_from_lower (r : list Re.atom) (s : list ascii) :
  forall prev,
    Re.search_from true r (option_map Text.lower_char prev) (Text.lower s)
    = Re.search_from true r prev s.
Proof.
  induction s as [|d s IH]; intros prev; cbn [Re.search_from Text.lower map].
  - change (@nil ascii) with (Text.lower []) at 1.
    now rewrite match_here_lower.
  - change (Text.lower_char d :: map Text.lower_char s)
      with (Text.lower (d :: s)).
    rewrite match_here_lower. f_equal.
    change (Some (Text.lower_char d))
      with (option_map Text.lower_char (Some d)).
    apply IH.
Qed.

Lemma search_lower (pattern : string) (text : list ascii) :
  Re.search true pattern text = Re.search true pattern (Text.lower text).
Proof.
  unfold Re.search. symmetry. apply (search_from_lower _ text None).
Qed.

Lemma question_lower (text : list ascii) :
  Text.str_in (list_ascii_of_string "?") text
  = Text.str_in (list_ascii_of_string "?") (Text.lower text).
Proof.
  apply eq_true_iff_eq. cbn [list_ascii_of_string].
  rewrite !str_in_char. unfold Text.lower. rewrite in_map_iff. split.
  - intros H. now exists "?"%char.
  - intros (c & L & I). apply lower_char_question in L. now subst.
Qed.

Lemma lower_str_chars (a b : string) :
  lower_str a = lower_str b ->
  Text.lower (list_ascii_of_string a) = Text.lower (list_ascii_of_string b).
Proof.
  unfold lower_str. intros H.
  apply (f_equal list_ascii_of_string) in H.
  now rewrite !list_ascii_of_string_of_list_ascii in H.
Qed.

(** X12. The classifier disregards letter case in all five flags: two texts
    that differ only in the case of their letters get the same flags. *)
Theorem classifier_ignores_letter_case (a b : string) :
  lower_str a = lower_str b ->
  _analyze_thought_patterns (Some a) = _analyze_thought_patterns (Some b).
Proof.
  intros H. apply lower_str_chars in H.
  destruct a as [|ca a], b as [|cb b]; try reflexivity; try discriminate.
  unfold _analyze_thought_patterns. cbv zeta.
  unfold self_reference_patterns. cbn [existsb].
  rewrite !(search_lower _ (list_ascii_of_string (String ca a))).
  rewrite !(search_lower _ (list_ascii_of_string (String cb b))).
  rewrite (question_lower (list_ascii_of_string (String ca a))).
  rewrite (question_lower (list_ascii_of_string (String cb b))).
  now rewrite H.
Qed.

Lemma classifier_ignores_letter_case_witness :
  lower_str "I FEEL Aware NOW?" = lower_str "i feel aware now?" /\
  _analyze_thought_patterns (Some "I FEEL Aware NOW?")
  = _analyze_thought_patterns (Some "i feel aware now?").
Proof.
  split; [reflexivity|].
  apply (classifier_ignores_letter_case "I FEEL Aware NOW?"
           "i feel aware now?").
  reflexivity.
Defined.

(* ================================================================== *)
(** ** When the analyzer raises *)

Lemma read_entries_objects (ls : list line) :
  forall ths ems ths' ems',
    read_entries ls ths ems = Return (ths', ems') ->
    forallb is_object ths = true -> forallb is_object ems = true ->
    forallb is_object ths' = true /\ forallb is_object ems' = true.
Proof.
  induction ls as [|l ls IH]; intros ths ems ths' ems' E Ht He.
  - injection E as <- <-. now split.
  - cbn [read_entries] in E.
    destruct (json_loads l) as [entry|x]; [|discriminate]. cbn [obind] in E.
    destruct (Json.getitem entry "event_type") as [ty|x] eqn:G;
      [|discriminate].
    cbn [obind] in E.
    assert (Ob : is_object entry = true).
    { destruct entry; try discriminate. reflexivity. }
    destruct (Json.eq_str ty "thought").
    + apply (IH _ _ _ _ E); [|exact He].
      rewrite forallb_app, Ht. cbn. now rewrite Ob.
    + destruct (Json.eq_str ty "emergence").
      * apply (IH _ _ _ _ E); [exact Ht|].
        rewrite forallb_app, He. cbn. now rewrite Ob.
      * now apply (IH _ _ _ _ E).
Qed.

Lemma count_flag_returns (flag : string) (ths : list json) :
  forallb is_object ths = true ->
  existsb patterns_not_object ths = false ->
  exists n, count_flag flag ths = Return n.
Proof.
  induction ths as [|t ths IH]; intros Ob Ok; [now eexists|].
  cbn [forallb] in Ob. apply andb_true_iff in Ob as [Ot Ob].
  cbn [existsb] in Ok. apply orb_false_iff in Ok as [Kt Ok].
  destruct (IH Ob Ok) as [n E].
  cbn [count_flag]. rewrite E.
  destruct t as [| | | | |fs]; try discriminate.
  unfold patterns_not_object, entry_field in Kt. cbn [Json.get].
  destruct (Json.lookup "patterns" fs) as [[| | | | |ps]|];
    try discriminate; cbn [obind Json.get];
    destruct (Json.lookup flag _); cbn [obind]; now eexists.
Qed.

Lemma count_flag_raises (flag : string) (ths : list json) :
  forallb is_object ths = true ->
  existsb patterns_not_object ths = true ->
  exists m, count_flag flag ths = Raise (AttributeError m).
Proof.
  induction ths as [|t ths IH]; intros Ob Bad; [discriminate|].
  cbn [forallb] in Ob. apply andb_true_iff in Ob as [Ot Ob].
  cbn [existsb] in Bad.
  destruct t as [| | | | |fs]; try discriminate.
  cbn [count_flag Json.get].
  unfold patterns_not_object, entry_field in Bad.
  destruct (Json.lookup "patterns" fs) as [[| | | | |ps]|];
    cbn [obind Json.get]; try (now eexists);
    cbn [orb] in Bad; destruct (IH Ob Bad) as [m E]; rewrite E;
    destruct (Json.lookup flag _); cbn [obind]; now eexists.
Qed.

Lemma emergence_type_values_returns (ems : list json) :
  forallb is_object ems = true ->
  existsb type_unusable ems = false ->
  exists types, emergence_type_values ems = Return types.
Proof.
  induction ems as [|e ems IH]; intros Ob Ok; [now eexists|].
  cbn [forallb] in Ob. apply andb_true_iff in Ob as [Oe Ob].
  cbn [existsb] in Ok. apply orb_false_iff in Ok as [Ke Ok].
  destruct (IH Ob Ok) as [types E].
  cbn [emergence_type_values]. rewrite E.
  destruct e as [| | | | |fs]; try discriminate.
  unfold type_unusable, entry_field in Ke. cbn [Json.getitem].
  destruct (Json.lookup "emergence_type" fs) as [v|]; [|discriminate].
  cbn [obind]. apply negb_false_iff in Ke. rewrite Ke. now eexists.
Qed.

Lemma emergence_type_values_raises (ems : list json) :
  forallb is_object ems = true ->
  existsb type_unusable ems = true ->
  emergence_type_values ems = Raise (KeyError "emergence_type") \/
  exists m, emergence_type_values ems = Raise (TypeError m).
Proof.
  induction ems as [|e ems IH]; intros Ob Bad; [discriminate|].
  cbn [forallb] in Ob. apply andb_true_iff in Ob as [Oe Ob].
  cbn [existsb] in Bad.
  destruct e as [| | | | |fs]; try discriminate.
  cbn [emergence_type_values Json.getitem].
  unfold type_unusable, entry_field in Bad.
  destruct (Json.lookup "emergence_type" fs) as [v|]; [|now left].
  cbn [obind]. destruct (Json.hashable v); [|right; now eexists].
  cbn [negb orb] in Bad.
  destruct (IH Ob Bad) as [E | [m E]]; rewrite E;
    [left | right; exists m]; reflexivity.
Qed.

(** X13. When the analyzer raises. The analysis of a log raises an exception
    exactly when the file was read to its end, holds at least one thought
    entry, and holds a thought entry whose [patterns] field is not an
    object or an emergence entry whose [emergence_type] is missing or not
    hashable; the exception is then an [AttributeError], the [KeyError] of
    [emergence_type], or a [TypeError]. In every other case the analysis
    returns a result. *)
Theorem analysis_raises_exactly_when (ls : list line) :
  (exists x, analyze_log (Some ls) = Raise x) <->
  (exists ths ems,
     read_entries ls [] [] = Return (ths, ems) /\
     ths <> [] /\
     existsb patterns_not_object ths || existsb type_unusable ems = true).
Proof.
  unfold analyze_log.
  destruct (read_entries ls [] []) as [[ths ems]|x] eqn:Rd.
  2:{ split; [intros [y H]; discriminate | intros (t & e & H & _); discriminate]. }
  destruct (read_entries_objects ls [] [] ths ems Rd eq_refl eq_refl)
    as [Ot Oe].
  unfold statistics.
  destruct ths as [|t ths].
  { cbn. split; [intros [y H]; discriminate|].
    intros (t & e & H & NE & _). injection H as <- _. now destruct NE. }
  replace (Z.of_nat (List.length (t :: ths)) =? 0) with false
    by (symmetry; apply Z.eqb_neq; cbn [List.length]; lia).
  destruct (existsb patterns_not_object (t :: ths)) eqn:Bp.
  - destruct (count_flag_raises "self_reference" _ Ot Bp) as [m E].
    rewrite E. cbn [obind]. split; [|now eexists].
    intros _. exists (t :: ths), ems.
    split; [reflexivity|]. split; [discriminate|]. now rewrite Bp.
  - destruct (count_flag_returns "self_reference" _ Ot Bp) as [a Ea].
    destruct (count_flag_returns "consciousness_indicators" _ Ot Bp)
      as [b Eb].
    destruct (count_flag_returns "questioning" _ Ot Bp) as [c Ec].
    rewrite Ea, Eb, Ec. cbn [obind orb].
    destruct (existsb type_unusable ems) eqn:Be.
    + split.
      * intros _. exists (t :: ths), ems.
        split; [reflexivity|]. split; [discriminate|]. now rewrite Bp, Be.
      * intros _.
        destruct (emergence_type_values_raises _ Oe Be) as [E | [m E]];
          rewrite E; now eexists.
    + destruct (emergence_type_values_returns _ Oe Be) as [types E].
      rewrite E. cbn [obind]. split; [intros [y H]; discriminate|].
      intros (t' & e' & H & _ & Bad). injection H as <- <-.
      rewrite Bp, Be in Bad. discriminate.
Qed.

(* ================================================================== *)
(** ** What the file holds and what the logger remembers *)

Lemma filter_written_le (P : json -> bool) (entries : list json) :
  forall faults,
    (List.length (filter P (Spec.entries (written faults entries)))
     <= List.length (filter P entries))%nat.
Proof.
  induction entries as [|e es IH]; intros faults; [cbn; lia|].
  assert (Keep : forall fs,
             (List.length (filter P (Spec.entries (Json e :: written fs es)))
              <= List.length (filter P (e :: es)))%nat).
  { intros fs. change (Spec.entries (Json e :: written fs es))
      with (e :: Spec.entries (written fs es)).
    cbn [filter]. specialize (IH fs). destruct (P e); cbn; lia. }
  assert (Drop : forall fs,
             (List.length (filter P (Spec.entries (written fs es)))
              <= List.length (filter P (e :: es)))%nat).
  { intros fs. cbn [filter]. specialize (IH fs). destruct (P e); cbn; lia. }
  destruct faults as [|[x|] fs]; cbn [written]; auto.
Qed.

(** X18. The file never holds more than the logger remembers: among the
    lines that a session adds to the file there are at most [thought_count]
    thought entries and at most as many emergence entries as events kept in
    memory. A write that fails makes the file fall behind the counters, so
    the analysis of the file can count fewer thoughts and events than the
    summary of the session, never more. *)
Theorem file_holds_no_more_than_memory (env : state) (cs : list call) :
  exists new,
    lines (session env cs) = lines env ++ new /\
    Z.of_nat (List.length (Spec.thoughts new))
    <= thought_count (session env cs) /\
    (List.length (Spec.emergences new)
     <= List.length (emergence_events (session env cs)))%nat.
Proof.
  destruct (session_traced env cs)
    as (ts & entries & (_ & _ & _ & P & _) & (A & _) & Ev & T & _).
  eexists. split; [exact A|].
  unfold Spec.thoughts, Spec.emergences. split.
  - rewrite T, <- length_session_patterns.
    rewrite <- (length_map (fun p => Some (patterns_json p))), <- P.
    unfold logged_patterns. rewrite length_map.
    apply inj_le.
    apply (Nat.le_trans _ _ _ (filter_written_le _ _ _)). cbn. lia.
  - rewrite Ev.
    apply (Nat.le_trans _ _ _ (filter_written_le _ _ _)). cbn. lia.
Qed.

(* ================================================================== *)
(** ** Uptime *)

Lemma keeps_ret {A : Type} (I : state -> Prop) (a : A) : keeps I (ret a).
Proof.
  intros st H. exact H.
Qed.

Lemma keeps_bind {A B : Type} (I : state -> Prop) (m : M A) (k : A -> M B) :
  keeps I m -> (forall a, keeps I (k a)) -> keeps I (bind m k).
Proof.
  intros Hm Hk st H. unfold bind. specialize (Hm st H).
  destruct (m st) as [[a|e] st']; cbn in *; [|exact Hm].
  now apply Hk.
Qed.

Lemma keeps_when (I : state -> Prop) (b : bool) (m : M unit) :
  keeps I m -> keeps I (when b m).
Proof.
  intros Hm. destruct b; [exact Hm | apply keeps_ret].
Qed.

Lemma write_keeps_never_entered (entry : json) :
  keeps never_entered (_write_log_entry entry).
Proof.
  intros st [S F].
  destruct (write_log_entry_spec entry st)
    as (st' & E & (_ & _ & Ev & St) & _).
  rewrite E. cbn [snd]. split; [congruence | now rewrite Ev].
Qed.

Lemma now_keeps_never_entered : keeps never_entered now.
Proof.
  intros st H. unfold now. now destruct (wall_clock st).
Qed.

Lemma log_emergence_keeps_never_entered (event_type content : string)
    (confidence : float) :
  keeps never_entered (log_emergence event_type content confidence).
Proof.
  intros st [S F].
  unfold log_emergence, bind, now, gets, modify, ret.
  destruct (wall_clock st) as [|ts wc]; cbn; rewrite S; cbn;
    match goal with
    | |- context [_write_log_entry ?e ?s] =>
        apply (write_keeps_never_entered e s)
    end;
    (split; [exact S|]);
    cbn [emergence_events set_emergence_events set_wall_clock];
    apply Forall_app; (split; [exact F | repeat constructor]).
Qed.

Lemma log_thought_keeps_never_entered (thought : string)
    (sensor_data : list (string * json)) (was_output : bool) :
  keeps never_entered (log_thought thought sensor_data was_output).
Proof.
  unfold log_thought.
  apply keeps_bind; [now intros st H | intros _].
  apply keeps_bind; [apply keeps_when; now intros st H | intros _].
  apply keeps_bind; [apply now_keeps_never_entered | intros timestamp].
  apply keeps_bind; [now intros st H | intros id].
  apply keeps_bind; [apply write_keeps_never_entered | intros _].
  apply keeps_when. unfold _detect_emergence_event.
  repeat (apply keeps_bind;
          [apply keeps_when, log_emergence_keeps_never_entered | intros _]).
  apply keeps_when, log_emergence_keeps_never_entered.
Qed.

Lemma run_keeps_never_entered (cs : list call) :
  existsb is_enter cs = false ->
  forall st, never_entered st -> never_entered (run cs st).
Proof.
  induction cs as [|c cs IH]; intros NE st H; [exact H|].
  cbn [existsb] in NE. apply orb_false_iff in NE as [Nc NE].
  cbn [run]. apply (IH NE).
  destruct c; [| |discriminate]; cbn [perform].
  - now apply log_thought_keeps_never_entered.
  - now apply log_emergence_keeps_never_entered.
Qed.

(** X19. Uptime needs [__enter__]. In a session in which the logger is
    never entered as a context manager, every emergence event, whether the
    detector or a direct call of [log_emergence] made it, has the integer 0
    as [session_uptime_seconds]: the start time is set by [__enter__]
    alone, and without it the uptime is not measured. *)
Theorem uptime_needs_enter (env : state) (cs : list call) :
  existsb is_enter cs = false ->
  _session_start_time (session env cs) = None /\
  Forall (fun e => entry_field "session_uptime_seconds" e
                   = Some (JNum (NInt 0)))
         (emergence_events (session env cs)).
Proof.
  intros NE. unfold session.
  apply (run_keeps_never_entered cs NE).
  destruct (init_traced env) as (st & E & _ & _ & Ev & S & _).
  rewrite E. cbn [snd]. split; [exact S|]. rewrite Ev. constructor.
Qed.

Lemma uptime_needs_enter_witness :
  Forall (fun e => entry_field "session_uptime_seconds" e
                   = Some (JNum (NInt 0)))
         (emergence_events
            (session quiet_environment
               [LogThought "I feel aware now?" [] true;
                LogEmergence "noted" "by hand" 1%float])).
Proof.
  apply (uptime_needs_enter quiet_environment
           [LogThought "I feel aware now?" [] true;
            LogEmergence "noted" "by hand" 1%float]).
  reflexivity.
Defined.

(* ================================================================== *)
(** ** The sensor array *)

Lemma lookup_setitem (k k' : string) (v : option number) (d : Sensors.dict) :
  Sensors.lookup k (Sensors.setitem k' v d)
  = if String.eqb k k' then Some v else Sensors.lookup k d.
Proof.
  induction d as [|[k0 v0] d IH]; cbn [Sensors.setitem Sensors.lookup].
  - reflexivity.
  - destruct (String.eqb_spec k' k0) as [->|N]; cbn [Sensors.lookup].
    + now destruct (String.eqb k k0).
    + rewrite IH. destruct (String.eqb_spec k k0) as [->|N'];
        [|reflexivity].
      destruct (String.eqb_spec k0 k') as [E|_]; [|reflexivity].
      now destruct N.
Qed.

Lemma lookup_app (k : string) (a b : Sensors.dict) :
  Sensors.lookup k (a ++ b)
  = match Sensors.lookup k a with
    | Some v => Some v
    | None => Sensors.lookup k b
    end.
Proof.
  induction a as [|[k0 v0] a IH]; [reflexivity|].
  cbn [app Sensors.lookup]. now destruct (String.eqb k k0).
Qed.

(** After [d.update(other)] a key has the value [other] gives it, the last
    one if [other] lists it more than once, and otherwise the value it had
    in [d]. *)
Lemma lookup_update (k : string) (other : Sensors.dict) :
  forall d,
    Sensors.lookup k (Sensors.update d other)
    = match Sensors.lookup k (rev other) with
      | Some v => Some v
      | None => Sensors.lookup k d
      end.
Proof.
  unfold Sensors.update.
  induction other as [|[k1 v1] other IH]; intros d; [reflexivity|].
  cbn [fold_left rev fst snd]. rewrite IH, lookup_app, lookup_setitem.
  cbn [Sensors.lookup].
  destruct (Sensors.lookup k (rev other)); [reflexivity|].
  now destruct (String.eqb k k1).
Qed.

Lemma lookup_all_sensors (k : string) (h : Sensors.host) :
  Sensors.lookup k (Sensors.get_all_sensors h)
  = match (if String.eqb k "audio_level"
           then option_map (fun l => Some (NFloat l)) (Sensors.audio_level h)
           else None) with
    | Some v => Some v
    | None =>
    match Sensors.lookup k (rev (Sensors.get_process_sensors h)) with
    | Some v => Some v
    | None =>
    match Sensors.lookup k (rev (Sensors.get_temporal_sensors h)) with
    | Some v => Some v
    | None =>
    match Sensors.lookup k (rev (Sensors.get_power_sensors h)) with
    | Some v => Some v
    | None => Sensors.lookup k (rev (Sensors.get_system_sensors h))
    end end end end.
Proof.
  unfold Sensors.get_all_sensors. cbv zeta.
  destruct (Sensors.audio_level h) as [level|]; cbn [option_map].
  - rewrite lookup_setitem. destruct (String.eqb k "audio_level");
      [reflexivity|].
    rewrite !lookup_update. cbn [Sensors.lookup].
    now destruct (Sensors.lookup k (rev (Sensors.get_system_sensors h))).
  - destruct (String.eqb k "audio_level");
      rewrite !lookup_update; cbn [Sensors.lookup];
      now destruct (Sensors.lookup k (rev (Sensors.get_system_sensors h))).
Qed.

Ltac source_shapes h :=
  destruct h as [sys plat bat cpu load procs hour minute weekday
                 start t1 t2 audio];
  unfold Sensors.get_system_sensors, Sensors.get_power_sensors,
    Sensors.get_temporal_sensors, Sensors.get_process_sensors in *;
  cbn [Sensors.system_now Sensors.platform_system Sensors.sensors_battery
       Sensors.process_cpu Sensors.audio_level Sensors.clock_hour
       Sensors.clock_minute Sensors.clock_weekday Sensors.start_time
       Sensors.time_first Sensors.time_second] in *;
  destruct sys as [sys|];
  destruct (String.eqb plat "Darwin");
  destruct bat as [bat|];
  destruct procs as [procs|];
  cbn [Sensors.and_then] in *;
  try destruct (Sensors.active_processes procs) as [active|];
  cbn [Sensors.and_then] in *;
  destruct audio as [audio|].

Ltac which_key k H :=
  cbn [Sensors.lookup] in H;
  repeat match type of H with
         | context [String.eqb k ?s] =>
             destruct (String.eqb_spec k s) as [->|_]
         end;
  try discriminate H.

(** X14. No reading is lost when [get_all_sensors] merges its sources:
    whatever the host answers, every key that the system, power, temporal
    or process sensors give is a key of the merged mapping with the same
    value, and [audio_level] is a key exactly when the audio level is not
    [None]. *)
Theorem merge_keeps_every_reading (h : Sensors.host) (k : string)
    (v : option number) :
  Sensors.lookup k (Sensors.get_system_sensors h) = Some v \/
  Sensors.lookup k (Sensors.get_power_sensors h) = Some v \/
  Sensors.lookup k (Sensors.get_temporal_sensors h) = Some v \/
  Sensors.lookup k (Sensors.get_process_sensors h) = Some v ->
  Sensors.lookup k (Sensors.get_all_sensors h) = Some v /\
  Sensors.lookup "audio_level" (Sensors.get_all_sensors h)
  = option_map (fun l => Some (NFloat l)) (Sensors.audio_level h).
Proof.
  intros H. rewrite !lookup_all_sensors.
  source_shapes h;
    (split; [|reflexivity]);
    destruct H as [H | [H | [H | H]]];
    which_key k H; injection H as <-; reflexivity.
Qed.

Lemma merge_keeps_every_reading_witness :
  Sensors.lookup "day_of_week" (Sensors.get_all_sensors failing_host)
  = Some (Some (NInt 0)).
Proof.
  apply (merge_keeps_every_reading failing_host "day_of_week"
           (Some (NInt 0))).
  right. right. left. reflexivity.
Defined.

(** *** Processes *)

Lemma active_processes_spec (ps : list (option float)) :
  match Sensors.active_processes ps with
  | Sensors.Got active =>
      ~ In None ps /\ 0 <= active <= Z.of_nat (List.length ps)
  | Sensors.Raised => In None ps
  end.
Proof.
  induction ps as [|[c|] ps IH]; cbn [Sensors.active_processes].
  - split; [tauto | cbn; lia].
  - destruct (Sensors.active_processes ps) as [n|]; cbn [Sensors.and_then].
    + destruct IH as [NI B]. split.
      * intros [E | I]; [discriminate | tauto].
      * cbn [List.length]. destruct (PrimFloat.ltb 0.1 c); lia.
    + now right.
  - now left.
Qed.

(** X15. [get_process_sensors] never raises and never divides by zero.
    It gives the error mapping exactly when the list of processes cannot
    be read or one process has no [cpu_percent] reading; otherwise it gives
    the number of processes, a number of active ones between zero and that
    number, and their ratio, which is the integer 0 when there is no
    process. *)
Theorem process_sensors_cases (h : Sensors.host) :
  (Sensors.get_process_sensors h = process_error <->
   Sensors.process_cpu h = Sensors.Raised \/
   exists ps, Sensors.process_cpu h = Sensors.Got ps /\ In None ps) /\
  (forall ps,
     Sensors.process_cpu h = Sensors.Got ps -> ~ In None ps ->
     exists active,
       Sensors.active_processes ps = Sensors.Got active /\
       0 <= active <= Z.of_nat (List.length ps) /\
       Sensors.get_process_sensors h
       = process_readings (Z.of_nat (List.length ps)) active).
Proof.
  unfold Sensors.get_process_sensors.
  destruct (Sensors.process_cpu h) as [ps|]; cbn [Sensors.and_then].
  2:{ split; [split; auto | discriminate]. }
  pose proof (active_processes_spec ps) as A.
  destruct (Sensors.active_processes ps) as [active|] eqn:Act;
    cbn [Sensors.and_then].
  - destruct A as [NI B]. split.
    + split; [discriminate|].
      intros [E | (ps' & E & I)]; [discriminate|].
      injection E as <-. tauto.
    + intros ps' E _. injection E as <-. exists active.
      split; [exact Act|]. split; [exact B|].
      unfold process_readings. destruct ps; reflexivity.
  - split.
    + split; [|reflexivity]. intros _. right. now exists ps.
    + intros ps' E NI. injection E as <-. tauto.
Qed.

(** *** The time in the summary *)

Lemma times_of_day_in (hour minute : Z) :
  0 <= hour < 24 -> 0 <= minute < 60 -> In (hour, minute) times_of_day.
Proof.
  intros H M. unfold times_of_day. apply in_flat_map.
  exists (Z.to_nat hour). split; [apply in_seq; lia|].
  apply in_map_iff. exists (Z.to_nat minute).
  split; [f_equal; lia | apply in_seq; lia].
Qed.

Lemma displayed_all_ok : forallb displayed_ok times_of_day = true.
Proof.
  vm_compute. reflexivity.
Qed.

Lemma displayed_late_count :
  List.length (filter displayed_late times_of_day) = 622%nat.
Proof.
  vm_compute. reflexivity.
Qed.

Lemma displayed_spec (hour minute : Z) :
  0 <= hour < 24 -> 0 <= minute < 60 ->
  exists m,
    displayed hour minute = Sensors.Got (hour, m) /\
    (m = minute \/ m = minute - 1).
Proof.
  intros H M. pose proof displayed_all_ok as A.
  rewrite forallb_forall in A.
  specialize (A _ (times_of_day_in hour minute H M)).
  unfold displayed_ok in A. cbn [fst snd] in A.
  destruct (displayed hour minute) as [[h m]|]; [|discriminate].
  apply andb_true_iff in A as [Eh Em]. apply Z.eqb_eq in Eh. subst h.
  exists m. split; [reflexivity|].
  apply orb_true_iff in Em as [E | E]; apply Z.eqb_eq in E; auto.
Qed.

Lemma displayed_inv (hour minute h m : Z) :
  displayed hour minute = Sensors.Got (h, m) ->
  let x := NFloat (float_of_int hour + float_of_int minute / 60)%float in
  Sensors.int_of x = Sensors.Got h /\
  Sensors.int_of (Sensors.mul (Sensors.sub x (NInt h)) (NInt 60))
  = Sensors.Got m.
Proof.
  unfold displayed. cbv zeta.
  destruct (Sensors.int_of (NFloat _)) as [h'|]; [|discriminate].
  cbn [Sensors.and_then].
  destruct (Sensors.int_of (Sensors.mul _ _)) as [m'|] eqn:E;
    [|discriminate].
  cbn [Sensors.and_then]. intros H. injection H as <- <-. now split.
Qed.

Lemma lookup_hour_of_day (h : Sensors.host) :
  Sensors.lookup "hour_of_day" (Sensors.get_all_sensors h)
  = Some (Some (NFloat (float_of_int (Sensors.clock_hour h)
                        + float_of_int (Sensors.clock_minute h) / 60)%float)).
Proof.
  rewrite lookup_all_sensors. source_shapes h; reflexivity.
Qed.

Lemma time_part_clock (h : Sensors.host) :
  0 <= Sensors.clock_hour h < 24 -> 0 <= Sensors.clock_minute h < 60 ->
  exists minute,
    Sensors.time_part (Sensors.get_all_sensors h)
    = Sensors.Got [shown_time (Sensors.clock_hour h) minute] /\
    (minute = Sensors.clock_minute h \/ minute = Sensors.clock_minute h - 1).
Proof.
  intros H M.
  destruct (displayed_spec _ _ H M) as (m & D & Hm).
  apply displayed_inv in D. cbv zeta in D. destruct D as [D1 D2].
  exists m. split; [|exact Hm].
  unfold Sensors.time_part. rewrite lookup_hour_of_day, D1.
  cbn [Sensors.and_then]. rewrite D2. reflexivity.
Qed.

Lemma system_part_returns (format_1f : float -> string) (h : Sensors.host) :
  exists a, Sensors.system_part format_1f (Sensors.get_all_sensors h)
            = Sensors.Got a.
Proof.
  unfold Sensors.system_part. rewrite !lookup_all_sensors.
  source_shapes h; eexists; reflexivity.
Qed.

Lemma power_part_returns (format_0f : float -> string) (data : Sensors.dict) :
  exists b, Sensors.power_part format_0f data = Sensors.Got b.
Proof.
  unfold Sensors.power_part.
  destruct (Sensors.lookup "battery_percent" data) as [[p|]|];
    eexists; reflexivity.
Qed.

Lemma audio_part_returns (data : Sensors.dict) :
  exists d, Sensors.audio_part data = Sensors.Got d.
Proof.
  unfold Sensors.audio_part.
  destruct (Sensors.lookup "audio_level" data) as [[p|]|];
    eexists; reflexivity.
Qed.

(** X16. The time in the sensor summary. When the clock reads a valid
    time of day, [get_sensor_summary] returns a summary, never the text
    "Sensors initializing...": its parts, joined by [" | "], include the
    time, shown with the hour of the clock and with the minute of the
    clock or the minute before. The minute before is shown for 622 of the
    1440 minutes of the day: the fraction of the hour does not survive the
    round trip through [hour_of_day] in binary64. *)
Theorem summary_shows_the_clock (format_1f format_0f : float -> string)
    (h : Sensors.host) :
  0 <= Sensors.clock_hour h < 24 ->
  0 <= Sensors.clock_minute h < 60 ->
  (exists minute parts,
     Sensors.summary_parts format_1f format_0f (Sensors.get_all_sensors h)
     = Sensors.Got parts /\
     In (shown_time (Sensors.clock_hour h) minute) parts /\
     (minute = Sensors.clock_minute h \/
      minute = Sensors.clock_minute h - 1) /\
     Sensors.get_sensor_summary format_1f format_0f h
     = Sensors.Got (String.concat " | " parts)) /\
  List.length (filter displayed_late times_of_day) = 622%nat.
Proof.
  intros H M. split; [|apply displayed_late_count].
  destruct (time_part_clock h H M) as (minute & T & Hm).
  destruct (system_part_returns format_1f h) as [a A].
  destruct (power_part_returns format_0f (Sensors.get_all_sensors h))
    as [b B].
  destruct (audio_part_returns (Sensors.get_all_sensors h)) as [d D].
  exists minute, (a ++ b ++ [shown_time (Sensors.clock_hour h) minute] ++ d).
  assert (P : Sensors.summary_parts format_1f format_0f
                (Sensors.get_all_sensors h)
              = Sensors.Got
                  (a ++ b ++ [shown_time (Sensors.clock_hour h) minute] ++ d)).
  { unfold Sensors.summary_parts. rewrite A, B, T, D. reflexivity. }
  split; [exact P|].
  split; [rewrite !in_app_iff; cbn; tauto|].
  split; [exact Hm|].
  unfold Sensors.get_sensor_summary. rewrite P. cbn [Sensors.and_then].
  destruct (a ++ b ++ [shown_time (Sensors.clock_hour h) minute] ++ d)
    eqn:E; [|reflexivity].
  apply (f_equal (@List.length string)) in E.
  rewrite !length_app in E. cbn in E. lia.
Qed.

Lemma summary_shows_the_clock_witness :
  Sensors.get_sensor_summary (fun _ => "") (fun _ => "") failing_host
  = Sensors.Got "Time: 01:00".
Proof.
  destruct (summary_shows_the_clock (fun _ => "") (fun _ => "") failing_host)
    as [(minute & parts & P & _ & _ & S) _]; [cbn; lia | cbn; lia |].
  rewrite S. vm_compute in P. injection P as <-. reflexivity.
Defined.

(** *** Thermal pressure *)

(** X17. The thermal pressure that [get_power_sensors] reports is capped
    and never raises. It is a float that is not greater than 1.0 when the
    number of CPUs is positive, the integer 0 when that number is zero or
    negative, and [None] exactly when the number of CPUs cannot be read or
    is [None], or the load average cannot be read. *)
Theorem thermal_pressure_is_capped (h : Sensors.host) :
  match Sensors.thermal_pressure h with
  | Some (NFloat x) =>
      PrimFloat.ltb 1 x = false /\
      Sensors.getloadavg h <> Some Sensors.Raised /\
      exists n, Sensors.cpu_count h = Sensors.Got (Some n) /\ 0 < n
  | Some (NInt z) =>
      z = 0 /\
      Sensors.getloadavg h <> Some Sensors.Raised /\
      exists n, Sensors.cpu_count h = Sensors.Got (Some n) /\ n <= 0
  | None =>
      Sensors.cpu_count h = Sensors.Raised \/
      Sensors.cpu_count h = Sensors.Got None \/
      Sensors.getloadavg h = Some Sensors.Raised
  end.
Proof.
  unfold Sensors.thermal_pressure.
  destruct (Sensors.cpu_count h) as [[n|]|]; cbn [Sensors.and_then]; auto.
  - destruct (Sensors.getloadavg h) as [[load|]|]; cbn [Sensors.and_then];
      auto;
      destruct (0 <? n) eqn:Pos;
      try (split; [reflexivity|]; split; [discriminate|];
           exists n; split; [reflexivity|];
           apply Z.ltb_ge in Pos; exact Pos);
      (split; [|split; [discriminate|];
                exists n; split; [reflexivity | now apply Z.ltb_lt]]);
      unfold fmin;
      match goal with
      | |- context [PrimFloat.ltb 1 ?q] =>
          destruct (PrimFloat.ltb 1 q) eqn:Q; [reflexivity | exact Q]
      end.
  - destruct (Sensors.getloadavg h) as [[load|]|]; cbn [Sensors.and_then];
      auto.
Qed.
